(** * swagen [generate] command and the generator's code assembler

    A shallow embedding of the two JavaScript modules of the repository:

    - the [generate] command (profile validation, input resolution,
      document parsing, generator invocation, artifact write-out), and
    - [lib/generator/index.js], which assembles the generated code.

    JavaScript exceptions are completions ([Returned] / [Threw]); the
    in-place mutation of a profile object is a state monad over the profile;
    every call that leaves the module (the [cli] logger, [fs], [needle],
    [require], the swagger parser, the generator package) is recorded in a
    trace, each entry tagged with the profile key in whose processing it
    happens.  Results of the outside world come from an environment record. *)

From Stdlib Require Import String Ascii List Bool Arith Lia DecimalString Permutation.
From Stdlib Require DecimalNat.
Import ListNotations.
Local Open Scope list_scope.
Local Open Scope string_scope.

Set Implicit Arguments.

(* ------------------------------------------------------------------ *)
(** ** JavaScript strings *)

Module JsString.

(** [String.prototype.toLowerCase], on the ASCII letters.  Bytes above 127
    are left alone: no character outside ASCII lowercases to an ASCII
    letter of the words compared below. *)
Definition lowerAscii (c : ascii) : ascii :=
  let n := nat_of_ascii c in
  if ((65 <=? n) && (n <=? 90))%nat then ascii_of_nat (n + 32) else c.

Fixpoint toLowerCase (s : string) : string :=
  match s with
  | EmptyString => EmptyString
  | String c r => String (lowerAscii c) (toLowerCase r)
  end.

(** [_.startsWith(s, prefix)] *)
Definition startsWith (s pre : string) : bool := String.prefix pre s.

(** The character class [[\w\-]]: letters, digits, underscore, dash. *)
Definition isWordOrDash (c : ascii) : bool :=
  let n := nat_of_ascii c in
  (((65 <=? n) && (n <=? 90)) || ((97 <=? n) && (n <=? 122))
   || ((48 <=? n) && (n <=? 57)) || (n =? 95) || (n =? 45))%nat.

(** Case-insensitive comparison with a lower-case literal (flag [i]). *)
Definition eqIgnoreCase (s lit : string) : bool :=
  String.eqb (toLowerCase s) lit.

(** [s.match(/^[\w\-]+-language$/i)], as a truth value: one or more class
    characters, then the literal, then the end of the string.  The
    recursion is the backtracking of the [+]. *)
Fixpoint matchLanguage (s : string) : bool :=
  match s with
  | EmptyString => false
  | String c r =>
      isWordOrDash c && (eqIgnoreCase r "-language" || matchLanguage r)
  end.

(** [Array.prototype.join] *)
Fixpoint join (sep : string) (lines : list string) : string :=
  match lines with
  | [] => EmptyString
  | [l] => l
  | l :: rest => l ++ sep ++ join sep rest
  end.

(** A number inside a template literal. *)
Definition ofNat (n : nat) : string :=
  NilEmpty.string_of_uint (Nat.to_uint n).

End JsString.

(* ------------------------------------------------------------------ *)
(** ** Values, truthiness, exceptions *)

(** What a [throw] can carry in this program. *)
Inductive JsExn :=
| JsError (message : string)                         (* new Error(message) *)
| ReferenceError (message : string)
| TypeError (message : string)
| SyntaxError (lineNumber : option nat) (message : option string)
| ThrownString (s : string)                          (* throw "text" *)
| ExternalError (what : string).                     (* raised by fs, needle, a package *)

Inductive Completion (A : Type) :=
| Returned (a : A)
| Threw (e : JsExn).
Arguments Returned {A} a.
Arguments Threw {A} e.

(** Truthiness of the values that occur in conditions. *)
Class Truthy (A : Type) := truthy : A -> bool.

#[global] Instance truthy_string : Truthy string :=
  fun s => match s with EmptyString => false | _ => true end.
#[global] Instance truthy_bool : Truthy bool := fun b => b.
#[global] Instance truthy_nat : Truthy nat :=
  fun n => match n with O => false | S _ => true end.

(** A property that may be absent: [undefined] is falsy. *)
Definition truthyProp {A} `{Truthy A} (o : option A) : bool :=
  match o with Some a => truthy a | None => false end.

(** An object is always truthy; only its absence is falsy. *)
Definition present {A} (o : option A) : bool :=
  match o with Some _ => true | None => false end.

(** [${x}] for a property that may be absent. *)
Definition show (o : option string) : string :=
  match o with Some s => s | None => "undefined" end.

(* ------------------------------------------------------------------ *)
(** ** Profiles and configurations *)

(** [profile.debug]; the one recognised sub-field is [definition]. *)
Record Debug := { definition : option string }.

(** [transforms] and [options] are passed through untouched. *)
Definition Passthrough := list (string * string).

Record Profile := {
  file : option string;
  url : option string;
  output : option string;
  generator : option string;
  skip : option bool;
  debug : option Debug;
  transforms : option Passthrough;
  options : option Passthrough
}.

Definition set_debug (d : Debug) (p : Profile) : Profile :=
  {| file := file p; url := url p; output := output p;
     generator := generator p; skip := skip p;
     debug := Some d; transforms := transforms p; options := options p |}.

Definition set_transforms (t : Passthrough) (p : Profile) : Profile :=
  {| file := file p; url := url p; output := output p;
     generator := generator p; skip := skip p;
     debug := debug p; transforms := Some t; options := options p |}.

Definition set_options (o : Passthrough) (p : Profile) : Profile :=
  {| file := file p; url := url p; output := output p;
     generator := generator p; skip := skip p;
     debug := debug p; transforms := transforms p; options := Some o |}.

(** The configuration object, as [for (let profileKey in config)] walks it:
    its keys in enumeration order, each with the profile object it holds. *)
Definition Config := list (string * Profile).

Definition keys (config : Config) : list string := map fst config.

(* ------------------------------------------------------------------ *)
(** ** Mutation of one object, with exceptions *)

Module Mut.

Definition t (S A : Type) := S -> Completion A * S.

Definition ret {S A} (a : A) : t S A := fun s => (Returned a, s).

Definition bind {S A B} (m : t S A) (f : A -> t S B) : t S B :=
  fun s =>
    match m s with
    | (Returned a, s') => f a s'
    | (Threw e, s') => (Threw e, s')
    end.

Definition throw {S A} (e : JsExn) : t S A := fun s => (Threw e, s).

Definition read {S} : t S S := fun s => (Returned s, s).

Definition modify {S} (f : S -> S) : t S unit := fun s => (Returned tt, f s).

(** [if (c) { body }] *)
Definition when {S} (c : bool) (body : t S unit) : t S unit :=
  if c then body else ret tt.

End Mut.

Declare Scope mut_scope.
Delimit Scope mut_scope with mut.
Notation "x <- m ;; k" := (Mut.bind m (fun x => k))
  (at level 61, m at next level, right associativity) : mut_scope.
Notation "m ;; k" := (Mut.bind m (fun _ => k))
  (at level 61, right associativity) : mut_scope.

(* ------------------------------------------------------------------ *)
(** ** Identifier resolution *)

(** The string-valued bindings visible at a program point. *)
Definition Scope := list (string * string).

Fixpoint lookupIdent (sc : Scope) (x : string) : option string :=
  match sc with
  | [] => None
  | (y, v) :: r => if String.eqb x y then Some v else lookupIdent r x
  end.

(** Evaluation of an identifier: an unresolvable reference throws. *)
Definition ident (sc : Scope) (x : string) : Completion string :=
  match lookupIdent sc x with
  | Some v => Returned v
  | None => Threw (ReferenceError (x ++ " is not defined"))
  end.

Definition configScriptFileName := "swagen.config.js".
Definition configJsonFileName := "swagen.config.json".

(** The [const] strings declared at the top of the module. *)
Definition moduleScope (currentDir : string) : Scope :=
  [ ("currentDir", currentDir);
    ("configScriptFileName", configScriptFileName);
    ("configJsonFileName", configJsonFileName) ].

(* ------------------------------------------------------------------ *)
(** ** Calls that leave the module *)

Section World.

(** A parsed swagger document and a normalised definition: both are the
    business of [swagen-core] and of the generator packages. *)
Variables Json Defn : Type.

(** The document handed to [handleSwagger]: text, or an object already. *)
Inductive Swagger :=
| SwaggerText (text : string)
| SwaggerValue (value : Json).

(** A generator package: [generate] and the optional [validateProfile].
    Both receive the profile object; they are taken to read it only, as
    their contract ([validateProfile(profile) -> void],
    [generate(definition, profile) -> string]) has it. *)
Record GeneratorPkg := {
  validateProfile : option (Profile -> Completion unit);
  generate : Defn -> Profile -> Completion string
}.

Inductive Event :=
| CliInfo (message : string)
| CliError (message : string)
| CliErrorExn (error : JsExn)
| CliDebug (message : string)
| ConsoleLog (ex : JsExn)
| HelpCommand
| FsReadFile (path : string) (profile : Profile)     (* request; the callback holds [profile] *)
| NeedleGet (url : option string) (profile : Profile) (* request; the callback holds [profile] *)
| FsWriteFileSync (path : string) (data : string)
| ParserParse (swagger : Json)
| RequireModule (name : string)
| ValidateProfile (profile : Profile)
| Generate (definition : Defn) (profile : Profile).

(** A trace entry: the profile key being processed, and the call. *)
Definition Entry := (option string * Event)%type.

Definition tagged (profileKey : string) (evs : list Event) : list Entry :=
  map (fun ev => (Some profileKey, ev)) evs.

Definition untagged (evs : list Event) : list Entry :=
  map (fun ev => (@None string, ev)) evs.

Definition Trace := list Entry.

(** What the outside world answers.  The answer to a read or a fetch is
    fixed per path or URL: the order in which requests complete is left
    open, and no answer is made to depend on it.  [JSON_stringify] always
    returns: a definition is taken to be plain data, which
    [JSON.stringify] serialises without throwing. *)
Record Env := {
  currentDir : string;                               (* process.cwd() *)
  EOL : string;                                      (* os.EOL *)
  path_resolve : string -> string -> string;
  fs_existsSync : string -> bool;
  require_config : string -> Completion Config;
  fs_readFile : string -> Completion string;
  needle_get : option string -> Completion Swagger;
  fs_writeFileSync : string -> string -> Completion unit;
  JSON_parse : string -> Completion Json;
  JSON_stringify : Defn -> string;
  Parser_parse : Json -> Completion Defn;            (* new Parser(swagger).parse() *)
  require_generator : string -> Completion GeneratorPkg
}.

End World.

Arguments SwaggerText {Json} text.
Arguments SwaggerValue {Json} value.
Arguments CliInfo {Json Defn} message.
Arguments CliError {Json Defn} message.
Arguments CliErrorExn {Json Defn} error.
Arguments CliDebug {Json Defn} message.
Arguments ConsoleLog {Json Defn} ex.
Arguments HelpCommand {Json Defn}.
Arguments FsReadFile {Json Defn} path profile.
Arguments NeedleGet {Json Defn} url profile.
Arguments FsWriteFileSync {Json Defn} path data.
Arguments ParserParse {Json Defn} swagger.
Arguments RequireModule {Json Defn} name.
Arguments ValidateProfile {Json Defn} profile.
Arguments Generate {Json Defn} definition profile.

(** Code that calls out and may throw: a completion and the trace so far. *)
Module Run.

Definition t (E A : Type) := (Completion A * list E)%type.

Definition ret {E A} (a : A) : t E A := (Returned a, []).

Definition bind {E A B} (m : t E A) (f : A -> t E B) : t E B :=
  match m with
  | (Returned a, tr) => let (r, tr') := f a in (r, (tr ++ tr')%list)
  | (Threw e, tr) => (Threw e, tr)
  end.

Definition emit {E} (ev : E) : t E unit := (Returned tt, [ev]).

(** A call whose completion the outside decides. *)
Definition call {E A} (ev : E) (result : Completion A) : t E A := (result, [ev]).

Definition lift {E A} (c : Completion A) : t E A := (c, []).

End Run.

Declare Scope run_scope.
Delimit Scope run_scope with run.
Notation "x <- m ;; k" := (Run.bind m (fun x => k))
  (at level 61, m at next level, right associativity) : run_scope.
Notation "m ;; k" := (Run.bind m (fun _ => k))
  (at level 61, right associativity) : run_scope.

(* ------------------------------------------------------------------ *)
(** ** The [generate] command *)

Section Command.

Variables Json Defn : Type.
Variable env : Env Json Defn.

Definition getConfig : Completion Config :=
  let configScript := path_resolve env (currentDir env) configScriptFileName in
  if fs_existsSync env configScript then require_config env configScript
  else
    let configJson := path_resolve env (currentDir env) configJsonFileName in
    if fs_existsSync env configJson then require_config env configJson
    else
      let errorMessage :=
        JsString.join (EOL env)
          [ "Specify a " ++ configScriptFileName ++ " or " ++ configJsonFileName
              ++ " file to configure the swagen tool.";
            EmptyString;
            "To create a configuration file in the current directory, use the following command:";
            EmptyString;
            "    swagen init";
            EmptyString;
            "This will ask you a series of questions and generate a configuration file based on your answers." ] in
      Threw (ThrownString errorMessage).

(** Inside [verifyProfile(profile)] the only names in scope are the
    parameter [profile] (an object) and the module's own bindings. *)
Definition verifyProfile_scope : Scope := moduleScope (currentDir env).

(** [throw new Error(`[${profileKey}] ...`)]: the template is evaluated
    first, and its first part is the identifier [profileKey]. *)
Definition throwError (sc : Scope) (rest : string) : Mut.t Profile unit :=
  match ident sc "profileKey" with
  | Returned profileKey => Mut.throw (JsError ("[" ++ profileKey ++ "] " ++ rest))
  | Threw e => Mut.throw e
  end.

Local Open Scope mut_scope.

(** Past the third check [profile.generator] is a non-empty string, so
    [show] is that string in the last two checks. *)
Definition verifyProfile : Mut.t Profile unit :=
  profile <- Mut.read ;;
  Mut.when (negb (truthyProp (file profile)) && negb (truthyProp (url profile)))
    (throwError verifyProfile_scope
       "Must specify a file or url in the configuration.") ;;
  Mut.when (negb (truthyProp (output profile)))
    (throwError verifyProfile_scope
       "Must specify an output file path in the configuration.") ;;
  Mut.when (negb (truthyProp (generator profile)))
    (throwError verifyProfile_scope
       "Must specify a generator in the configuration.") ;;
  Mut.when (JsString.eqIgnoreCase (show (generator profile)) "core")
    (throwError verifyProfile_scope
       ("Invalid generator " ++ show (generator profile)
          ++ ". This name is reserved.")) ;;
  Mut.when (JsString.matchLanguage (show (generator profile)))
    (throwError verifyProfile_scope
       ("Invalid generator " ++ show (generator profile)
          ++ ". The -language suffix is reserved for language helper packages.")) ;;
  profile <- Mut.read ;;
  Mut.when (negb (present (debug profile)))
    (Mut.modify (set_debug {| definition := None |})) ;;
  profile <- Mut.read ;;
  Mut.when (negb (present (transforms profile)))
    (Mut.modify (set_transforms [])) ;;
  profile <- Mut.read ;;
  Mut.when (negb (present (options profile)))
    (Mut.modify (set_options [])).

Local Close Scope mut_scope.
Local Open Scope run_scope.

(** [path.resolve(currentDir, x)]; a missing [x] is a [TypeError]. *)
Definition resolvePath (x : option string) : Completion string :=
  match x with
  | Some s => Returned (path_resolve env (currentDir env) s)
  | None => Threw (TypeError "The paths[1] argument must be of type string")
  end.

(** The [catch (e)] block of [handleSwagger]. *)
Definition reportInvalidSource (profileKey : string) (e : JsExn)
  : list (Event Json Defn) :=
  CliError ("Invalid swagger source for profile '" ++ profileKey ++ "'.")
  :: match e with
     | SyntaxError lineNumber message =>
         (match lineNumber with
          | Some n =>
              if truthy n
              then [CliError ("At line number " ++ JsString.ofNat n ++ ".")]
              else []
          | None => []
          end
          ++
          match message with
          | Some m => if truthy m then [CliError m] else []
          | None => []
          end)%list
     | _ => []
     end.

(** The package name handed to [require]. *)
Definition generatorModule (profile : Profile) : Completion string :=
  if JsString.startsWith
       (match generator profile with Some g => g | None => EmptyString end) "."
  then resolvePath (generator profile)
  else Returned ("swagen-" ++ show (generator profile)).

(** [if (typeof swagger === 'string') swagger = JSON.parse(swagger)] *)
Definition parseIfString (swagger : Swagger Json) : Completion Json :=
  match swagger with
  | SwaggerText text => JSON_parse env text
  | SwaggerValue value => Returned value
  end.

(** The [if (profile.debug.definition)] block of [handleSwagger]. *)
Definition dumpDefinition (definition_ : Defn) (debug_ : Debug)
  (profileKey : string) : Run.t (Entry Json Defn) unit :=
  if truthyProp (definition debug_)
  then
    let definitionJson := JSON_stringify env definition_ in
    target <- Run.lift (resolvePath (definition debug_)) ;;
    Run.call (Some profileKey, FsWriteFileSync target definitionJson)
             (fs_writeFileSync env target definitionJson) ;;
    Run.emit (Some profileKey,
              CliDebug ("[" ++ profileKey ++ "] Definition file written to '"
                          ++ show (definition debug_) ++ "'."))
  else Run.ret tt.

Definition handleSwagger (swagger : Swagger Json) (profile : Profile)
  (profileKey : string) : Run.t (Entry Json Defn) unit :=
  let at_ (ev : Event Json Defn) : Entry Json Defn := (Some profileKey, ev) in
  match parseIfString swagger with
  | Threw e =>
      (* catch (e) { ...; return; } *)
      (Returned tt, tagged profileKey (reportInvalidSource profileKey e))
  | Returned swagger =>
      definition_ <- Run.call (at_ (ParserParse swagger)) (Parser_parse env swagger) ;;
      debug_ <- Run.lift
                  (match debug profile with
                   | Some d => Returned d
                   | None => Threw (TypeError "Cannot read properties of undefined (reading 'definition')")
                   end) ;;
      dumpDefinition definition_ debug_ profileKey ;;
      name <- Run.lift (generatorModule profile) ;;
      generatorPkg <- Run.call (at_ (RequireModule name)) (require_generator env name) ;;
      (match validateProfile generatorPkg with
       | Some hook => Run.call (at_ (ValidateProfile profile)) (hook profile)
       | None => Run.ret tt
       end) ;;
      output_ <- Run.call (at_ (Generate definition_ profile))
                          (generate generatorPkg definition_ profile) ;;
      outputFilePath <- Run.lift (resolvePath (output profile)) ;;
      let target := path_resolve env (currentDir env) outputFilePath in
      Run.call (at_ (FsWriteFileSync target output_))
               (fs_writeFileSync env target output_) ;;
      Run.emit (at_ (CliInfo ("[" ++ profileKey ++ "] Code generated at '"
                                ++ outputFilePath ++ "'.")))
  end.

(** [handleFileSwagger]: log, then issue the read.  The callback runs
    later, from the event loop. *)
Definition handleFileSwagger (profile : Profile) (profileKey : string)
  : Run.t (Entry Json Defn) unit :=
  inputFilePath <- Run.lift (resolvePath (file profile)) ;;
  Run.emit (Some profileKey,
            CliInfo ("[" ++ profileKey ++ "] Input swagger file : " ++ inputFilePath)) ;;
  Run.emit (Some profileKey, FsReadFile inputFilePath profile).

(** The callback given to [fs.readFile]. *)
Definition readFileCallback (profile : Profile) (profileKey : string)
  (result : Completion string) : Run.t (Entry Json Defn) unit :=
  match result with
  | Threw error =>
      Run.emit (Some profileKey,
                CliError ("Cannot read swagger file '" ++ show (file profile) ++ "'.")) ;;
      Run.emit (Some profileKey, CliErrorExn error)
  | Returned swagger => handleSwagger (SwaggerText swagger) profile profileKey
  end.

Definition handleUrlSwagger (profile : Profile) (profileKey : string)
  : Run.t (Entry Json Defn) unit :=
  Run.emit (Some profileKey,
            CliInfo ("[" ++ profileKey ++ "] Input swagger URL : " ++ show (url profile))) ;;
  Run.emit (Some profileKey, NeedleGet (url profile) profile).

(** The callback given to [needle.get]. *)
Definition needleCallback (profile : Profile) (profileKey : string)
  (result : Completion (Swagger Json)) : Run.t (Entry Json Defn) unit :=
  match result with
  | Threw err =>
      Run.emit (Some profileKey,
                CliError ("Cannot read swagger URL '" ++ show (url profile) ++ "'.")) ;;
      Run.emit (Some profileKey, CliErrorExn err)
  | Returned body => handleSwagger body profile profileKey
  end.

(** One turn of the [for ... in] loop of [processInputs]: the completion,
    the profile object as the turn leaves it, and the calls made. *)
Definition processInputs_turn (profileKey : string) (profile : Profile)
  : Completion unit * Profile * Trace Json Defn :=
  if truthyProp (skip profile) then (Returned tt, profile, [])
  else
    match verifyProfile profile with
    | (Threw e, profile') => (Threw e, profile', [])
    | (Returned _, profile') =>
        let (r, tr) :=
          if truthyProp (file profile')
          then handleFileSwagger profile' profileKey
          else handleUrlSwagger profile' profileKey in
        (r, profile', tr)
    end.

(** [processInputs(config)]: the completion, the configuration object
    afterwards (profiles are mutated in place), and the calls made.  A
    throw leaves the loop, so the remaining profiles are not visited. *)
Fixpoint processInputs (config : Config)
  : Completion unit * Config * Trace Json Defn :=
  match config with
  | [] => (Returned tt, [], [])
  | (profileKey, profile) :: rest =>
      match processInputs_turn profileKey profile with
      | (Returned _, profile', tr) =>
          let '(r, rest', tr') := processInputs rest in
          (r, (profileKey, profile') :: rest', (tr ++ tr')%list)
      | (Threw e, profile', tr) =>
          (Threw e, (profileKey, profile') :: rest, tr)
      end
  end.

(** The [catch (ex)] block of the exported function. *)
Definition reportTopLevel (ex : JsExn) : Trace Json Defn :=
  match ex with
  | ThrownString s => untagged [CliError s; HelpCommand]
  | _ => untagged [ConsoleLog ex]
  end.

(** The [try] block of the exported function once [getConfig()] has
    completed with [loaded], and its [catch]: the synchronous part of a
    run. *)
Definition exported (loaded : Completion Config) : Trace Json Defn :=
  match loaded with
  | Threw ex => reportTopLevel ex
  | Returned config =>
      match processInputs config with
      | (Returned _, _, tr) => tr
      | (Threw ex, _, tr) => (tr ++ reportTopLevel ex)%list
      end
  end.

(** [module.exports = function(args)] *)
Definition module_exports : Trace Json Defn := exported getConfig.

(** *** Callbacks *)

(** A request in flight: which profile issued it, and for what. *)
Inductive Pending :=
| PendingRead (profileKey : string) (profile : Profile) (path : string)
| PendingGet (profileKey : string) (profile : Profile) (url : option string).

Definition owner (pd : Pending) : string :=
  match pd with
  | PendingRead k _ _ => k
  | PendingGet k _ _ => k
  end.

Definition requestOf (en : Entry Json Defn) : option Pending :=
  match en with
  | (Some k, FsReadFile path profile) => Some (PendingRead k profile path)
  | (Some k, NeedleGet u profile) => Some (PendingGet k profile u)
  | _ => None
  end.

(** The requests a trace has issued, in issue order. *)
Fixpoint pending (tr : Trace Json Defn) : list Pending :=
  match tr with
  | [] => []
  | en :: r =>
      match requestOf en with
      | Some pd => pd :: pending r
      | None => pending r
      end
  end.

(** A request completes: its callback runs with the outside's answer. *)
Definition complete (pd : Pending) : Run.t (Entry Json Defn) unit :=
  match pd with
  | PendingRead k profile path => readFileCallback profile k (fs_readFile env path)
  | PendingGet k profile u => needleCallback profile k (needle_get env u)
  end.

(** Callbacks run one at a time, in the order the requests complete.
    Nothing in the module catches what a callback throws; the exception
    ends the run (no [uncaughtException] handler is installed). *)
Fixpoint eventLoop (order : list Pending) : Run.t (Entry Json Defn) unit :=
  match order with
  | [] => Run.ret tt
  | pd :: rest => complete pd ;; eventLoop rest
  end.

(** A whole run: the exported function, then the callbacks of the
    requests it issued, completing in the order [schedule] picks. *)
Definition runFrom (schedule : list Pending -> list Pending)
  (loaded : Completion Config) : Run.t (Entry Json Defn) unit :=
  let tr := exported loaded in
  (Returned tt, tr) ;; eventLoop (schedule (pending tr)).

Definition run (schedule : list Pending -> list Pending)
  : Run.t (Entry Json Defn) unit :=
  runFrom schedule getConfig.

Local Close Scope run_scope.

End Command.

(* ------------------------------------------------------------------ *)
(** ** A concrete outside world, for running the model *)

Module Demo.

(** Documents are kept as their text; a definition is a list of lines. *)
Definition Json := string.
Definition Defn := list string.

Definition newline : string := String (ascii_of_nat 10) EmptyString.

Definition resolve (cwd p : string) : string :=
  if String.prefix "/" p then p else cwd ++ "/" ++ p.

Definition plain : GeneratorPkg Defn :=
  {| validateProfile := None;
     generate := fun d _ => Returned (JsString.join newline ("// generated" :: d)) |}.

(** A package whose hook insists on an [options.module] entry. *)
Definition strict : GeneratorPkg Defn :=
  {| validateProfile :=
       Some (fun p =>
               match options p with
               | Some (_ :: _) => Returned tt
               | _ => Threw (JsError "options.module is required")
               end);
     generate := fun d _ => Returned (JsString.join newline ("// strict" :: d)) |}.

Definition env (config : Config) : Env Json Defn :=
  {| currentDir := "/work";
     EOL := newline;
     path_resolve := resolve;
     fs_existsSync := fun p => String.eqb p "/work/swagen.config.json";
     require_config := fun _ => Returned config;
     fs_readFile := fun p =>
       if String.eqb p "/work/petstore.json" then Returned "{ paths }"
       else if String.eqb p "/work/broken.json" then Returned "{ paths, }"
       else Threw (ExternalError "ENOENT");
     needle_get := fun u =>
       match u with
       | Some "https://x/doc.json" => Returned (SwaggerValue "{ remote }")
       | _ => Threw (ExternalError "ECONNREFUSED")
       end;
     fs_writeFileSync := fun _ _ => Returned tt;
     JSON_parse := fun s =>
       if String.eqb s "{ paths, }"
       then Threw (SyntaxError (Some 1) (Some "Unexpected token } in JSON at position 9"))
       else Returned s;
     JSON_stringify := JsString.join newline;
     Parser_parse := fun j => Returned [j];
     require_generator := fun name =>
       if String.eqb name "swagen-typescript" then Returned plain
       else if String.eqb name "swagen-strict" then Returned strict
       else Threw (ExternalError "Cannot find module") |}.

Definition profile (f u o g : option string) : Profile :=
  {| file := f; url := u; output := o; generator := g; skip := None;
     debug := None; transforms := None; options := None |}.

Definition skipped (p : Profile) : Profile :=
  {| file := file p; url := url p; output := output p;
     generator := generator p; skip := Some true;
     debug := debug p; transforms := transforms p; options := options p |}.

Definition petstore : Profile :=
  profile (Some "petstore.json") None (Some "petstore.ts") (Some "typescript").

Definition remote : Profile :=
  profile None (Some "https://x/doc.json") (Some "remote.ts") (Some "typescript").

Definition broken : Profile :=
  profile (Some "broken.json") None (Some "broken.ts") (Some "typescript").

Definition sourceless : Profile :=
  profile None None (Some "out.ts") (Some "typescript").

Definition reserved : Profile :=
  profile None (Some "https://x/doc.json") (Some "out.cs") (Some "core").

Definition both : Profile :=
  profile (Some "petstore.json") (Some "https://x/doc.json")
          (Some "both.ts") (Some "typescript").

Definition fifo (l : list Pending) := l.

End Demo.

(* ------------------------------------------------------------------ *)
(** ** Reasoning about traces *)

Module RunFacts.

Section All.

Variables E : Type.
Variable P : E -> Prop.

(** Every call made satisfies [P]. *)
Definition all {A} (m : Run.t E A) : Prop := Forall P (snd m).

Lemma all_ret A (a : A) : all (Run.ret a).
Proof. constructor. Qed.

Lemma all_lift A (c : Completion A) : all (Run.lift c).
Proof. constructor. Qed.

Lemma all_emit ev : P ev -> all (Run.emit ev).
Proof. intros H. repeat constructor. exact H. Qed.

Lemma all_call A ev (c : Completion A) : P ev -> all (Run.call ev c).
Proof. intros H. repeat constructor. exact H. Qed.

Lemma all_bind A B (m : Run.t E A) (f : A -> Run.t E B) :
  all m -> (forall a, all (f a)) -> all (Run.bind m f).
Proof.
  unfold all, Run.bind. destruct m as [[a|e] tr]; simpl; intros Hm Hf.
  - specialize (Hf a). destruct (f a) as [r tr']. simpl in *.
    apply Forall_app. split; assumption.
  - exact Hm.
Qed.

End All.

End RunFacts.

(* ------------------------------------------------------------------ *)
(** ** The reserved-suffix pattern *)

Module JsStringFacts.

Import JsString.

(** All characters of [s] are in the class [[\w\-]]. *)
Fixpoint allWordOrDash (s : string) : bool :=
  match s with
  | EmptyString => true
  | String c r => isWordOrDash c && allWordOrDash r
  end.

(** X17.  [matchLanguage] accepts exactly the strings made of a non-empty
    stem of class characters (letters, digits, underscore, dash) followed by
    "-language" in any letter case. *)
Lemma matchLanguage_iff (s : string) :
  matchLanguage s = true
  <-> exists stem suffix,
      s = stem ++ suffix /\ stem <> EmptyString
      /\ allWordOrDash stem = true /\ toLowerCase suffix = "-language".
Proof.
  split.
  - induction s as [| c r IH]; [discriminate | ].
    cbn [matchLanguage]. intros H.
    apply andb_true_iff in H. destruct H as [Hc H].
    apply orb_true_iff in H. destruct H as [H | H].
    + exists (String c EmptyString), r.
      repeat split; [discriminate | cbn; rewrite Hc; reflexivity | ].
      apply String.eqb_eq. exact H.
    + destruct (IH H) as [stem [suffix [-> [_ [Hall Hsuf]]]]].
      exists (String c stem), suffix.
      repeat split; [discriminate | cbn; rewrite Hc, Hall; reflexivity | exact Hsuf].
  - intros [stem [suffix [-> [Hne [Hall Hsuf]]]]].
    induction stem as [| c stem IH]; [contradiction | ].
    cbn [allWordOrDash] in Hall. apply andb_true_iff in Hall.
    destruct Hall as [Hc Hall].
    cbn [append matchLanguage]. rewrite Hc. cbn [andb].
    destruct stem as [| c' stem'].
    + cbn [append]. unfold eqIgnoreCase. rewrite Hsuf. reflexivity.
    + rewrite IH; [apply orb_true_r | discriminate | exact Hall].
Qed.

Example language_suffix_any_case :
  matchLanguage "CSharp-Language" = true
  /\ matchLanguage "type_script-language" = true
  /\ matchLanguage "-language" = false
  /\ matchLanguage "my language-language" = false
  /\ matchLanguage "typescript-languages" = false
  /\ eqIgnoreCase "CoRe" "core" = true
  /\ eqIgnoreCase "score" "core" = false.
Proof. repeat split. Qed.

End JsStringFacts.

(* ------------------------------------------------------------------ *)
(** ** The validator *)

Section Validator.

Variables Json Defn : Type.
Variable env : Env Json Defn.

(** Some check of [verifyProfile] fires. *)
Definition rejected (p : Profile) : bool :=
  (negb (truthyProp (file p)) && negb (truthyProp (url p)))
  || negb (truthyProp (output p))
  || negb (truthyProp (generator p))
  || JsString.eqIgnoreCase (show (generator p)) "core"
  || JsString.matchLanguage (show (generator p)).

(** The profile with the three defaults filled in where absent. *)
Definition populated (p : Profile) : Profile :=
  {| file := file p; url := url p; output := output p;
     generator := generator p; skip := skip p;
     debug := Some (match debug p with
                    | Some d => d
                    | None => {| definition := None |}
                    end);
     transforms := Some (match transforms p with Some t => t | None => [] end);
     options := Some (match options p with Some o => o | None => [] end) |}.

(** What evaluating [profileKey] inside [verifyProfile] throws. *)
Definition unboundProfileKey : JsExn :=
  ReferenceError "profileKey is not defined".

Lemma profileKey_unbound :
  ident (verifyProfile_scope env) "profileKey" = Threw unboundProfileKey.
Proof. reflexivity. Qed.

Lemma verifyProfile_cases (p : Profile) :
  verifyProfile env p =
  if rejected p then (Threw unboundProfileKey, p)
  else (Returned tt, populated p).
Proof.
  unfold verifyProfile, rejected, populated, throwError.
  rewrite profileKey_unbound.
  unfold Mut.bind, Mut.when, Mut.read, Mut.throw, Mut.ret, Mut.modify.
  destruct p as [f u o g s d t op]. cbn [file url output generator debug transforms options skip].
  destruct (truthyProp f), (truthyProp u); cbn [negb andb orb];
    try reflexivity;
    (destruct (truthyProp o); cbn [negb andb orb]; try reflexivity;
     destruct (truthyProp g); cbn [negb andb orb]; try reflexivity;
     destruct (JsString.eqIgnoreCase (show g) "core"); cbn [negb andb orb];
     try reflexivity;
     destruct (JsString.matchLanguage (show g)); cbn [negb andb orb];
     try reflexivity;
     destruct d, t, op; reflexivity).
Qed.

Lemma rejected_populated p : rejected (populated p) = rejected p.
Proof. reflexivity. Qed.

Lemma populated_idem p : populated (populated p) = populated p.
Proof. reflexivity. Qed.

Lemma verifyProfile_threw p e p' :
  verifyProfile env p = (Threw e, p') ->
  rejected p = true /\ e = unboundProfileKey /\ p' = p.
Proof.
  rewrite verifyProfile_cases. destruct (rejected p); intros H; inversion H.
  repeat split.
Qed.

Lemma verifyProfile_returned p u p' :
  verifyProfile env p = (Returned u, p') ->
  rejected p = false /\ p' = populated p.
Proof.
  rewrite verifyProfile_cases. destruct (rejected p); intros H; inversion H.
  repeat split.
Qed.

End Validator.

(* ------------------------------------------------------------------ *)
(** ** Who makes which call *)

Section Calls.

Variables Json Defn : Type.
Variable env : Env Json Defn.

(** A call made from inside a callback: it belongs to the profile of the
    callback, and it is not a new request. *)
Definition inCallback (k : string) (en : Entry Json Defn) : Prop :=
  fst en = Some k /\ requestOf en = None.

Ltac callback_step :=
  first
    [ apply RunFacts.all_ret
    | apply RunFacts.all_lift
    | apply RunFacts.all_emit; split; reflexivity
    | apply RunFacts.all_call; split; reflexivity
    | apply RunFacts.all_bind; [ | intros ? ] ].

Lemma tagged_inCallback k evs :
  (forall ev, In ev evs -> requestOf (Some k, ev) = None) ->
  Forall (inCallback k) (tagged k evs).
Proof.
  unfold tagged. intros H. apply Forall_forall. intros en Hin.
  apply in_map_iff in Hin. destruct Hin as [ev [<- Hev]].
  split; [reflexivity | apply H; exact Hev].
Qed.

Lemma reportInvalidSource_plain k e ev :
  In ev (@reportInvalidSource Json Defn k e) ->
  exists m, ev = CliError m.
Proof.
  unfold reportInvalidSource. intros [<- | Hin]; [eexists; reflexivity | ].
  destruct e; try contradiction.
  apply in_app_or in Hin. destruct Hin as [Hin | Hin].
  - destruct lineNumber as [n|]; [ | contradiction].
    destruct (truthy n); [ | contradiction].
    destruct Hin as [<- | []]. eexists; reflexivity.
  - destruct message as [m|]; [ | contradiction].
    destruct (truthy m); [ | contradiction].
    destruct Hin as [<- | []]. eexists; reflexivity.
Qed.

Lemma dumpDefinition_inCallback d dbg k :
  RunFacts.all (inCallback k) (dumpDefinition env d dbg k).
Proof.
  unfold dumpDefinition.
  destruct (truthyProp (definition dbg)); repeat callback_step.
Qed.

Lemma handleSwagger_inCallback swagger profile k :
  RunFacts.all (inCallback k) (handleSwagger env swagger profile k).
Proof.
  unfold handleSwagger.
  destruct (parseIfString env swagger) as [doc | e].
  - repeat callback_step.
    + apply dumpDefinition_inCallback.
    + destruct (validateProfile _); repeat callback_step.
  - unfold RunFacts.all. cbn [snd]. apply tagged_inCallback.
    intros ev Hev. apply reportInvalidSource_plain in Hev.
    destruct Hev as [m ->]. reflexivity.
Qed.

Lemma complete_inCallback pd :
  RunFacts.all (inCallback (owner pd)) (complete env pd).
Proof.
  destruct pd as [k p path | k p u]; simpl.
  - unfold readFileCallback. destruct (fs_readFile env path).
    + apply handleSwagger_inCallback.
    + repeat callback_step.
  - unfold needleCallback. destruct (needle_get env u).
    + apply handleSwagger_inCallback.
    + repeat callback_step.
Qed.

Lemma eventLoop_calls order en :
  In en (snd (eventLoop env order)) ->
  exists pd, In pd order /\ inCallback (owner pd) en.
Proof.
  induction order as [| pd rest IH]; simpl; [intros [] | ].
  pose proof (complete_inCallback pd) as Hpd. unfold RunFacts.all in Hpd.
  unfold Run.bind. destruct (complete env pd) as [[[]|e] tr]; simpl in *.
  - destruct (eventLoop env rest) as [r tr']. simpl in *. intros Hin.
    apply in_app_or in Hin. destruct Hin as [Hin | Hin].
    + exists pd. split; [now left | ].
      rewrite Forall_forall in Hpd. apply Hpd, Hin.
    + destruct (IH Hin) as [pd' [Hpd' Hcb]]. exists pd'. split; [now right | exact Hcb].
  - intros Hin. exists pd. split; [now left | ].
    rewrite Forall_forall in Hpd. apply Hpd, Hin.
Qed.

(** The request a verified profile issues: the file branch is tested
    first. *)
Definition requestFor (k : string) (p' : Profile) : Pending :=
  match file p' with
  | Some f =>
      if truthy f
      then PendingRead k p' (path_resolve env (currentDir env) f)
      else PendingGet k p' (url p')
  | None => PendingGet k p' (url p')
  end.

(** A call made by the loop of [processInputs] while it visits profile
    [k]: the profile is not skipped, it has passed [verifyProfile], and a
    request carries the profile as validation left it. *)
Definition inTurn (k : string) (p : Profile) (en : Entry Json Defn) : Prop :=
  fst en = Some k
  /\ truthyProp (skip p) = false
  /\ verifyProfile env p = (Returned tt, populated p)
  /\ (forall pd, requestOf en = Some pd -> pd = requestFor k (populated p)).

Lemma processInputs_turn_calls k p :
  Forall (inTurn k p) (snd (processInputs_turn env k p)).
Proof.
  unfold processInputs_turn.
  destruct (truthyProp (skip p)) eqn:Hskip; [constructor | ].
  pose proof (verifyProfile_cases env p) as Hv.
  destruct (rejected p); rewrite Hv; [constructor | ].
  unfold handleFileSwagger, handleUrlSwagger, inTurn, requestFor.
  change (file (populated p)) with (file p).
  destruct (file p) as [f|]; cbn [truthyProp resolvePath].
  - destruct (truthy f); cbn [Run.lift Run.bind Run.emit app snd];
      repeat constructor; cbn [fst]; try assumption;
      intros pd H; inversion H; reflexivity.
  - cbn [Run.lift Run.bind Run.emit app snd];
      repeat constructor; cbn [fst]; try assumption;
      intros pd H; inversion H; reflexivity.
Qed.

Lemma processInputs_calls config en :
  In en (snd (processInputs env config)) ->
  exists k p, In (k, p) config /\ inTurn k p en.
Proof.
  induction config as [| [k p] rest IH]; simpl; [intros [] | ].
  pose proof (processInputs_turn_calls k p) as Ht.
  destruct (processInputs_turn env k p) as [[[[]|e] p'] tr]; simpl in *.
  - destruct (processInputs env rest) as [[r rest'] tr']. simpl in *.
    intros Hin. apply in_app_or in Hin. destruct Hin as [Hin | Hin].
    + exists k, p. split; [now left | ]. rewrite Forall_forall in Ht. apply Ht, Hin.
    + destruct (IH Hin) as [k' [q [Hq Hen]]]. exists k', q. split; [now right | exact Hen].
  - intros Hin. exists k, p. split; [now left | ].
    rewrite Forall_forall in Ht. apply Ht, Hin.
Qed.

End Calls.

(* ------------------------------------------------------------------ *)
(** ** Whole runs *)

Section WholeRun.

Variables Json Defn : Type.
Variable env : Env Json Defn.

(** The outside completes exactly the requests that were issued, in any
    order it likes. *)
Definition admissible (schedule : list Pending -> list Pending) : Prop :=
  forall l, Permutation l (schedule l).

Lemma pending_In (tr : Trace Json Defn) pd :
  In pd (pending tr) -> exists en, In en tr /\ requestOf en = Some pd.
Proof.
  induction tr as [| en r IH]; simpl; [intros [] | ].
  destruct (requestOf en) as [pd0|] eqn:Hreq.
  - intros [<- | Hin].
    + exists en. split; [now left | exact Hreq].
    + destruct (IH Hin) as [en' [H1 H2]]. exists en'. split; [now right | exact H2].
  - intros Hin. destruct (IH Hin) as [en' [H1 H2]].
    exists en'. split; [now right | exact H2].
Qed.

Lemma reportTopLevel_untagged ex en :
  In en (@reportTopLevel Json Defn ex) -> fst en = None /\ requestOf en = None.
Proof.
  destruct ex; simpl; intros H;
    repeat (destruct H as [<- | H]; [split; reflexivity | ]); destruct H.
Qed.

Lemma keys_unique (config : Config) k p q :
  NoDup (keys config) -> In (k, p) config -> In (k, q) config -> p = q.
Proof.
  induction config as [| [k0 p0] rest IH]; simpl; [intros _ [] | ].
  intros Hnd Hp Hq. inversion Hnd as [| ? ? Hnotin Hnd']; subst.
  destruct Hp as [Hp | Hp], Hq as [Hq | Hq].
  - congruence.
  - inversion Hp; subst. exfalso. apply Hnotin.
    apply in_map_iff. exists (k, q). split; [reflexivity | exact Hq].
  - inversion Hq; subst. exfalso. apply Hnotin.
    apply in_map_iff. exists (k, p). split; [reflexivity | exact Hp].
  - apply IH; assumption.
Qed.

Lemma exported_calls config en :
  In en (exported env (Returned config)) ->
  (fst en = None /\ requestOf en = None)
  \/ exists k p, In (k, p) config /\ inTurn env k p en.
Proof.
  unfold exported.
  pose proof (@processInputs_calls _ _ env config en) as Hc.
  destruct (processInputs env config) as [[[[]|ex] cfg'] tr]; simpl in Hc.
  - intros Hin. right. apply Hc, Hin.
  - intros Hin. apply in_app_or in Hin. destruct Hin as [Hin | Hin].
    + right. apply Hc, Hin.
    + left. apply reportTopLevel_untagged with (ex := ex), Hin.
Qed.

(** Every call of a run is either the top-level report, or belongs to a
    profile of the configuration that was not skipped and had passed
    [verifyProfile] before its request was issued. *)
Lemma run_calls schedule config en :
  admissible schedule ->
  In en (snd (runFrom env schedule (Returned config))) ->
  fst en = None
  \/ exists k p, In (k, p) config /\ inTurn env k p en.
Proof.
  intros Hadm. unfold runFrom, Run.bind.
  destruct (eventLoop env (schedule (pending (exported env (Returned config)))))
    as [r tr'] eqn:Hloop.
  cbn [snd]. intros Hin. apply in_app_or in Hin. destruct Hin as [Hin | Hin].
  - destruct (exported_calls _ _ Hin) as [[H _] | H]; [now left | now right].
  - assert (Hin' : In en (snd (eventLoop env
               (schedule (pending (exported env (Returned config)))))))
      by (rewrite Hloop; exact Hin).
    apply eventLoop_calls in Hin'. destruct Hin' as [pd [Hpd [Htag Hreq]]].
    apply (Permutation_in _ (Permutation_sym (Hadm _))) in Hpd.
    apply pending_In in Hpd. destruct Hpd as [en0 [Hen0 Hreq0]].
    destruct (exported_calls _ _ Hen0) as [[_ Hnone] | [k [p [Hkp Ht]]]].
    + congruence.
    + right. exists k, p. split; [exact Hkp | ].
      destruct Ht as [Htag0 [Hskip [Hver Hpd]]].
      assert (owner pd = k) as Hown.
      { destruct en0 as [[k0|] ev]; destruct ev; simpl in Hreq0; try discriminate;
          inversion Hreq0; subst; simpl in *; congruence. }
      repeat split; try assumption.
      * rewrite Htag, Hown. reflexivity.
      * intros pd' Hpd'. congruence.
Qed.

(** A profile that is skipped or that [verifyProfile] rejects makes no
    call at all: nothing in the run carries its key. *)
Lemma silent_profile schedule config k p :
  NoDup (keys config) -> In (k, p) config -> admissible schedule ->
  truthyProp (skip p) = true \/ rejected p = true ->
  forall en, In en (snd (runFrom env schedule (Returned config))) ->
             fst en <> Some k.
Proof.
  intros Hnd Hkp Hadm Hwhy en Hin Htag.
  destruct (@run_calls schedule config en Hadm Hin) as [Hnone | [k' [q [Hq [Htag' [Hskip [Hver _]]]]]]].
  - congruence.
  - assert (k' = k) by congruence. subst k'.
    assert (q = p) by (eapply keys_unique; eassumption). subst q.
    destruct Hwhy as [Hs | Hr]; [congruence | ].
    rewrite verifyProfile_cases, Hr in Hver. discriminate.
Qed.

End WholeRun.

(* ------------------------------------------------------------------ *)
(** ** The loop of [processInputs] *)

Section Loop.

Variables Json Defn : Type.
Variable env : Env Json Defn.

(** The loop over a configuration in two parts: the second part is
    visited only if the first part completes without a throw. *)
Lemma processInputs_app (c1 c2 : Config) :
  processInputs env (c1 ++ c2)%list =
  match processInputs env c1 with
  | (Returned _, c1', tr) =>
      let '(r, c2', tr') := processInputs env c2 in
      (r, (c1' ++ c2')%list, (tr ++ tr')%list)
  | (Threw e, c1', tr) => (Threw e, (c1' ++ c2)%list, tr)
  end.
Proof.
  induction c1 as [| [k p] rest IH]; simpl.
  - destruct (processInputs env c2) as [[r c2'] tr']. reflexivity.
  - destruct (processInputs_turn env k p) as [[[[]|e] p'] tr]; [ | reflexivity].
    rewrite IH.
    destruct (processInputs env rest) as [[[[]|e1] rest'] tr1].
    + destruct (processInputs env c2) as [[r c2'] tr']. simpl.
      rewrite app_assoc. reflexivity.
    + reflexivity.
Qed.

Lemma processInputs_length (config : Config) :
  length (snd (fst (processInputs env config))) = length config.
Proof.
  induction config as [| [k p] rest IH]; simpl; [reflexivity | ].
  destruct (processInputs_turn env k p) as [[[[]|e] p'] tr]; [ | reflexivity].
  destruct (processInputs env rest) as [[r rest'] tr']. simpl in *.
  rewrite IH. reflexivity.
Qed.

Lemma turn_skipped k p :
  truthyProp (skip p) = true ->
  processInputs_turn env k p = (Returned tt, p, []).
Proof. unfold processInputs_turn. intros ->. reflexivity. Qed.

Lemma turn_rejected k p :
  truthyProp (skip p) = false -> rejected p = true ->
  processInputs_turn env k p = (Threw unboundProfileKey, p, []).
Proof.
  unfold processInputs_turn. intros -> Hr.
  rewrite verifyProfile_cases, Hr. reflexivity.
Qed.

Lemma turn_file k p f :
  truthyProp (skip p) = false -> rejected p = false ->
  file p = Some f -> truthy f = true ->
  processInputs_turn env k p =
  (Returned tt, populated p,
   [ (Some k, CliInfo ("[" ++ k ++ "] Input swagger file : "
                         ++ path_resolve env (currentDir env) f));
     (Some k, FsReadFile (path_resolve env (currentDir env) f) (populated p)) ]).
Proof.
  unfold processInputs_turn. intros -> Hr Hf Ht.
  rewrite verifyProfile_cases, Hr.
  change (file (populated p)) with (file p). rewrite Hf.
  cbn [truthyProp]. rewrite Ht.
  unfold handleFileSwagger. change (file (populated p)) with (file p).
  rewrite Hf. reflexivity.
Qed.

Lemma turn_url k p :
  truthyProp (skip p) = false -> rejected p = false ->
  truthyProp (file p) = false ->
  processInputs_turn env k p =
  (Returned tt, populated p,
   [ (Some k, CliInfo ("[" ++ k ++ "] Input swagger URL : " ++ show (url p)));
     (Some k, NeedleGet (url p) (populated p)) ]).
Proof.
  unfold processInputs_turn. intros -> Hr Hf.
  rewrite verifyProfile_cases, Hr.
  change (file (populated p)) with (file p). rewrite Hf. reflexivity.
Qed.

End Loop.

(* ------------------------------------------------------------------ *)
(** ** Properties of the validator and of the profile loop *)

Ltac distinct_keys :=
  repeat (constructor; [ simpl; intuition discriminate | ]); constructor.

Lemma fifo_admissible : admissible Demo.fifo.
Proof. intros l. apply Permutation_refl. Defined.

(** C2 (defect in the code).  [verifyProfile(profile)] has no [profileKey]
    parameter, yet every one of its messages starts with [${profileKey}]:
    whichever rule a profile violates, what is thrown is the
    [ReferenceError] of the unbound identifier, which carries neither the
    key of the profile nor the rule.  With the identifier bound, as in the
    sibling functions, the thrown [Error] would read "[key] reason". *)
Theorem verifyProfile_error_loses_key_and_reason :
  (forall (Json Defn : Type) (env : Env Json Defn) (p : Profile),
      fst (verifyProfile env p) =
      if rejected p
      then Threw (ReferenceError "profileKey is not defined")
      else Returned tt)
  /\ verifyProfile (Demo.env []) Demo.sourceless
     = (Threw (ReferenceError "profileKey is not defined"), Demo.sourceless)
  /\ (forall (Json Defn : Type) (env : Env Json Defn) (k rest : string) (p : Profile),
         throwError (("profileKey", k) :: verifyProfile_scope env) rest p
         = (Threw (JsError ("[" ++ k ++ "] " ++ rest)), p)).
Proof.
  split; [ | split].
  - intros Json Defn env p. rewrite verifyProfile_cases.
    destruct (rejected p); reflexivity.
  - reflexivity.
  - intros Json Defn env k rest p. reflexivity.
Qed.

(** C10.  Validation is atomic on the profile object: when a check fails
    the profile is left exactly as it was; when all checks pass, each of
    [debug], [transforms] and [options] is filled in if and only if it was
    absent, nothing else changes, and validating the result again changes
    nothing more. *)
Theorem verifyProfile_atomic :
  forall (Json Defn : Type) (env : Env Json Defn) (p : Profile),
    match verifyProfile env p with
    | (Threw _, p') => p' = p
    | (Returned _, p') =>
        p' = populated p
        /\ file p' = file p /\ url p' = url p /\ output p' = output p
        /\ generator p' = generator p /\ skip p' = skip p
        /\ debug p' = Some (match debug p with
                            | Some d => d
                            | None => {| definition := None |}
                            end)
        /\ transforms p' = Some (match transforms p with Some t => t | None => [] end)
        /\ options p' = Some (match options p with Some o => o | None => [] end)
        /\ verifyProfile env p' = (Returned tt, p')
    end.
Proof.
  intros Json Defn env p. rewrite verifyProfile_cases.
  destruct (rejected p) eqn:Hr; [reflexivity | ].
  repeat match goal with |- _ /\ _ => split end; try reflexivity.
  rewrite verifyProfile_cases, rejected_populated, Hr, populated_idem.
  reflexivity.
Qed.

Section ProfileLoop.

Variables Json Defn : Type.
Variable env : Env Json Defn.

(** C3.  A profile with neither [file] nor [url] fails validation before
    any I/O: [verifyProfile] throws and leaves the profile untouched, the
    loop turn of a non-skipped such profile throws without having made a
    single call, a whole run contains no call at all for that profile
    (so no file read and no fetch), and every request the loop does issue
    carries a profile that has gone through the complete
    check-then-default sequence. *)
Theorem missing_source_fails_before_io
  (schedule : list Pending -> list Pending) (config : Config)
  (k : string) (p : Profile) :
  NoDup (keys config) -> In (k, p) config -> admissible schedule ->
  truthyProp (file p) = false -> truthyProp (url p) = false ->
  (exists e, verifyProfile env p = (Threw e, p))
  /\ (truthyProp (skip p) = false ->
      exists e, processInputs_turn env k p = (Threw e, p, []))
  /\ (forall en, In en (snd (runFrom env schedule (Returned config))) ->
                 fst en <> Some k)
  /\ (forall pd, In pd (pending (exported env (Returned config))) ->
        exists q, In (owner pd, q) config
                  /\ truthyProp (skip q) = false
                  /\ verifyProfile env q = (Returned tt, populated q)
                  /\ pd = requestFor env (owner pd) (populated q)).
Proof.
  intros Hnd Hkp Hadm Hf Hu.
  assert (Hr : rejected p = true) by (unfold rejected; rewrite Hf, Hu; reflexivity).
  split; [ | split; [ | split]].
  - exists unboundProfileKey. rewrite verifyProfile_cases, Hr. reflexivity.
  - intros Hs. exists unboundProfileKey. apply turn_rejected; assumption.
  - apply silent_profile with (p := p); auto.
  - intros pd Hpd. apply pending_In in Hpd. destruct Hpd as [en [Hen Hreq]].
    destruct (exported_calls _ _ _ Hen) as [[_ Hnone] | [k' [q [Hq [Htag [Hs [Hv Hpd]]]]]]].
    + congruence.
    + assert (owner pd = k') as Hown.
      { destruct en as [[k0|] ev]; destruct ev; simpl in Hreq; try discriminate;
          inversion Hreq; subst; simpl in *; congruence. }
      exists q. rewrite Hown. repeat split; auto.
Qed.

(** C4.  A profile whose generator is [core] in any letter case, or
    matches [/^[\w\-]+-language$/i], fails validation, and this happens
    before anything else is done for it: in a whole run no generator
    package is resolved for it and no fetch (nor any other call) is
    made for it. *)
Theorem reserved_generator_fails_before_resolution
  (schedule : list Pending -> list Pending) (config : Config)
  (k : string) (p : Profile) (g : string) :
  NoDup (keys config) -> In (k, p) config -> admissible schedule ->
  generator p = Some g ->
  JsString.eqIgnoreCase g "core" = true \/ JsString.matchLanguage g = true ->
  (exists e, verifyProfile env p = (Threw e, p))
  /\ (forall name, ~ In (Some k, RequireModule name)
                        (snd (runFrom env schedule (Returned config))))
  /\ (forall u q, ~ In (Some k, NeedleGet u q)
                       (snd (runFrom env schedule (Returned config))))
  /\ (forall en, In en (snd (runFrom env schedule (Returned config))) ->
                 fst en <> Some k).
Proof.
  intros Hnd Hkp Hadm Hg Hres.
  assert (Hr : rejected p = true).
  { unfold rejected. rewrite Hg. cbn [show].
    destruct Hres as [-> | ->]; rewrite ?orb_true_r; reflexivity. }
  assert (Hsilent : forall en,
             In en (snd (runFrom env schedule (Returned config))) ->
             fst en <> Some k)
    by (apply silent_profile with (p := p); auto).
  split; [ | split; [ | split]].
  - exists unboundProfileKey. rewrite verifyProfile_cases, Hr. reflexivity.
  - intros name Hin. apply (Hsilent _ Hin). reflexivity.
  - intros u q Hin. apply (Hsilent _ Hin). reflexivity.
  - exact Hsilent.
Qed.

(** C5.  A profile with [skip] set is left out entirely: its loop turn
    returns at once with the profile object untouched and no call made;
    the loop over the configuration completes, mutates the other profiles
    and makes the same calls as it does on the configuration without that
    profile; and a whole run contains no call for it. *)
Theorem skipped_profile_is_omitted
  (schedule : list Pending -> list Pending) (c1 c2 : Config)
  (k : string) (p : Profile) :
  truthyProp (skip p) = true ->
  NoDup (keys (c1 ++ (k, p) :: c2)%list) -> admissible schedule ->
  processInputs_turn env k p = (Returned tt, p, [])
  /\ (exists r c1' c2' tr,
         processInputs env (c1 ++ c2)%list = (r, (c1' ++ c2')%list, tr)
         /\ processInputs env (c1 ++ (k, p) :: c2)%list
            = (r, (c1' ++ (k, p) :: c2')%list, tr)
         /\ length c1' = length c1)
  /\ (forall en,
         In en (snd (runFrom env schedule (Returned (c1 ++ (k, p) :: c2)%list))) ->
         fst en <> Some k).
Proof.
  intros Hs Hnd Hadm.
  split; [apply turn_skipped; exact Hs | split].
  - rewrite !processInputs_app.
    pose proof (processInputs_length env c1) as Hlen.
    destruct (processInputs env c1) as [[[[]|e] c1'] tr1]; simpl in Hlen.
    + simpl. rewrite (@turn_skipped _ _ env k p Hs).
      destruct (processInputs env c2) as [[r c2'] tr2].
      exists r, c1', c2', (tr1 ++ tr2)%list. repeat split. exact Hlen.
    + exists (Threw e), c1', c2, tr1. repeat split. exact Hlen.
  - apply silent_profile with (p := p); auto.
    apply in_or_app. right. now left.
Qed.

(** C8.  A valid, non-skipped profile that has both [file] and [url]
    is read from the file: its loop turn issues exactly one request, the
    file read, and a whole run never fetches the URL for it. *)
Theorem file_source_wins
  (schedule : list Pending -> list Pending) (config : Config)
  (k : string) (p : Profile) :
  NoDup (keys config) -> In (k, p) config -> admissible schedule ->
  truthyProp (skip p) = false -> rejected p = false ->
  truthyProp (file p) = true -> truthyProp (url p) = true ->
  (exists f,
      file p = Some f
      /\ processInputs_turn env k p =
         (Returned tt, populated p,
          [ (Some k, CliInfo ("[" ++ k ++ "] Input swagger file : "
                                ++ path_resolve env (currentDir env) f));
            (Some k, FsReadFile (path_resolve env (currentDir env) f)
                                (populated p)) ]))
  /\ (forall u q, ~ In (Some k, NeedleGet u q)
                       (snd (runFrom env schedule (Returned config)))).
Proof.
  intros Hnd Hkp Hadm Hs Hr Hf Hu. split.
  - destruct (file p) as [f|] eqn:Hfile; [ | discriminate].
    exists f. split; [reflexivity | ].
    apply turn_file; assumption.
  - intros u q Hin.
    destruct (@run_calls _ _ env schedule config _ Hadm Hin)
      as [Hnone | [k' [p0 [Hp0 [Htag [_ [_ Hpd]]]]]]]; [discriminate | ].
    simpl in Htag. assert (k' = k) by congruence. subst k'.
    assert (p0 = p) by (eapply keys_unique; eassumption). subst p0.
    specialize (Hpd _ eq_refl). unfold requestFor in Hpd.
    change (file (populated p)) with (file p) in Hpd.
    destruct (file p) as [f|]; [ | discriminate].
    cbn [truthyProp] in Hf. rewrite Hf in Hpd. discriminate.
Qed.

End ProfileLoop.

(* ------------------------------------------------------------------ *)
(** ** Properties of the callbacks *)

Section Callbacks.

Variables Json Defn : Type.
Variable env : Env Json Defn.

Lemma eventLoop_cons_returned pd rest tr :
  complete env pd = (Returned tt, tr) ->
  eventLoop env (pd :: rest)
  = (fst (eventLoop env rest), (tr ++ snd (eventLoop env rest))%list).
Proof.
  intros H. simpl. rewrite H. unfold Run.bind.
  destruct (eventLoop env rest). reflexivity.
Qed.

Lemma handleSwagger_invalid swagger profile k e :
  parseIfString env swagger = Threw e ->
  handleSwagger env swagger profile k
  = (Returned tt, tagged k (reportInvalidSource Json Defn k e)).
Proof. unfold handleSwagger. intros ->. reflexivity. Qed.

(** C7.  When the document is text that [JSON.parse] rejects,
    [handleSwagger] logs "Invalid swagger source for profile 'key'." with
    [cli.error]; for a [SyntaxError] it then logs "At line number n." when
    the error carries a line number other than zero, and the message when
    the error carries a non-empty one, in this order (the number written in
    decimal); for any other exception it logs nothing more.  It makes no
    other call - the normaliser is not run, no generator package is
    resolved or invoked, nothing is written - and it returns normally, so
    the callbacks of the other requests run after it as they would
    anyway. *)
Theorem invalid_json_aborts_only_its_profile
  (text : string) (profile : Profile) (k : string) (e : JsExn) :
  JSON_parse env text = Threw e ->
  let invalid : Entry Json Defn :=
    (Some k, CliError ("Invalid swagger source for profile '" ++ k ++ "'.")) in
  let atLine (n : nat) : Entry Json Defn :=
    (Some k, CliError ("At line number " ++ JsString.ofNat n ++ ".")) in
  let said (m : string) : Entry Json Defn := (Some k, CliError m) in
  let result := handleSwagger env (SwaggerText text) profile k in
  (forall n m,
      e = SyntaxError (Some (S n)) (Some m) -> m <> EmptyString ->
      result = (Returned tt, [invalid; atLine (S n); said m]))
  /\ (forall ln m,
         e = SyntaxError ln (Some m) -> m <> EmptyString ->
         ln = None \/ ln = Some 0 ->
         result = (Returned tt, [invalid; said m]))
  /\ (forall n msg,
         e = SyntaxError (Some (S n)) msg ->
         msg = None \/ msg = Some EmptyString ->
         result = (Returned tt, [invalid; atLine (S n)]))
  /\ (forall ln msg,
         e = SyntaxError ln msg ->
         ln = None \/ ln = Some 0 ->
         msg = None \/ msg = Some EmptyString ->
         result = (Returned tt, [invalid]))
  /\ ((forall ln msg, e <> SyntaxError ln msg) ->
      result = (Returned tt, [invalid]))
  /\ (forall n,
         option_map Nat.of_uint (NilEmpty.uint_of_string (JsString.ofNat n))
         = Some n)
  /\ fst result = Returned tt
  /\ (exists more,
         snd result = invalid :: more
         /\ forall en, In en more -> exists m, en = (Some k, CliError m))
  /\ (forall path rest,
         fs_readFile env path = Returned text ->
         eventLoop env (PendingRead k profile path :: rest)
         = (fst (eventLoop env rest),
            (snd result ++ snd (eventLoop env rest))%list))
  /\ (forall u rest,
         needle_get env u = Returned (SwaggerText text) ->
         eventLoop env (PendingGet k profile u :: rest)
         = (fst (eventLoop env rest),
            (snd result ++ snd (eventLoop env rest))%list)).
Proof.
  intros Hparse invalid atLine said result.
  assert (Hh : result
               = (Returned tt, tagged k (reportInvalidSource Json Defn k e)))
    by (apply handleSwagger_invalid; exact Hparse).
  split.
  { intros n m -> Hm. rewrite Hh. destruct m; [contradiction | reflexivity]. }
  split.
  { intros ln m -> Hm Hln. rewrite Hh. destruct m; [contradiction | ].
    destruct Hln as [-> | ->]; reflexivity. }
  split.
  { intros n msg -> Hmsg. rewrite Hh. destruct Hmsg as [-> | ->]; reflexivity. }
  split.
  { intros ln msg -> Hln Hmsg. rewrite Hh.
    destruct Hln as [-> | ->], Hmsg as [-> | ->]; reflexivity. }
  split.
  { intros Hother. rewrite Hh. destruct e; try reflexivity.
    exfalso. eapply Hother. reflexivity. }
  split.
  { intros n. unfold JsString.ofNat. rewrite NilEmpty.usu. cbn [option_map].
    rewrite DecimalNat.Unsigned.of_to. reflexivity. }
  split; [rewrite Hh; reflexivity | ].
  split.
  { rewrite Hh. cbn [snd]. eexists. split; [reflexivity | ].
    intros en Hin. apply in_map_iff in Hin. destruct Hin as [ev [<- Hev]].
    assert (Hin : In ev (reportInvalidSource Json Defn k e)) by (right; exact Hev).
    apply reportInvalidSource_plain in Hin. destruct Hin as [m ->].
    exists m. reflexivity. }
  split.
  - intros path rest Hread. apply eventLoop_cons_returned.
    unfold result in *. cbn [complete]. rewrite Hread. cbn [readFileCallback].
    rewrite Hh. reflexivity.
  - intros u rest Hget. apply eventLoop_cons_returned.
    unfold result in *. cbn [complete]. rewrite Hget. cbn [needleCallback].
    rewrite Hh. reflexivity.
Qed.

(** C9.  Once the document is parsed and normalised, the optional
    diagnostic dump is done and the generator package is resolved:
    a package with a [validateProfile] hook has the hook called with the
    profile before [generate]; if the hook throws, [handleSwagger] throws
    with it, [generate] is not called and no artifact is written (the hook
    is the last call made);
    a package without the hook has [generate(definition, profile)] called
    directly; and in both cases the text [generate] returns is what is
    written, unchanged, to the resolved output path. *)
Theorem hook_runs_before_generate
  (swagger : Swagger Json) (doc : Json) (d : Defn) (profile : Profile)
  (dbg : Debug) (k name : string) (pkg : GeneratorPkg Defn)
  (pre : Trace Json Defn) :
  (forall q, path_resolve env (currentDir env) (path_resolve env (currentDir env) q)
             = path_resolve env (currentDir env) q) ->
  parseIfString env swagger = Returned doc ->
  Parser_parse env doc = Returned d ->
  debug profile = Some dbg ->
  dumpDefinition env d dbg k = (Returned tt, pre) ->
  generatorModule env profile = Returned name ->
  require_generator env name = Returned pkg ->
  let before := ((Some k, ParserParse doc) :: pre
                   ++ [(Some k, RequireModule name)])%list in
  (forall hook e,
      validateProfile pkg = Some hook -> hook profile = Threw e ->
      handleSwagger env swagger profile k
      = (Threw e, (before ++ [(Some k, ValidateProfile profile)])%list))
  /\ (forall hook text o,
         validateProfile pkg = Some hook -> hook profile = Returned tt ->
         generate pkg d profile = Returned text ->
         output profile = Some o ->
         fs_writeFileSync env (path_resolve env (currentDir env) o) text
         = Returned tt ->
         handleSwagger env swagger profile k
         = (Returned tt,
            (before ++
             [ (Some k, ValidateProfile profile);
               (Some k, Generate d profile);
               (Some k, FsWriteFileSync (path_resolve env (currentDir env) o) text);
               (Some k, CliInfo ("[" ++ k ++ "] Code generated at '"
                                   ++ path_resolve env (currentDir env) o ++ "'.")) ])%list))
  /\ (forall text o,
         validateProfile pkg = None ->
         generate pkg d profile = Returned text ->
         output profile = Some o ->
         fs_writeFileSync env (path_resolve env (currentDir env) o) text
         = Returned tt ->
         handleSwagger env swagger profile k
         = (Returned tt,
            (before ++
             [ (Some k, Generate d profile);
               (Some k, FsWriteFileSync (path_resolve env (currentDir env) o) text);
               (Some k, CliInfo ("[" ++ k ++ "] Code generated at '"
                                   ++ path_resolve env (currentDir env) o ++ "'.")) ])%list)).
Proof.
  intros Habs Hparse Hnorm Hdbg Hdump Hname Hreq before. subst before.
  unfold handleSwagger. rewrite Hparse.
  unfold Run.call, Run.lift. rewrite Hnorm, Hdbg. cbn [Run.bind].
  rewrite Hdump. cbn [Run.bind]. rewrite Hname. cbn [Run.bind].
  rewrite Hreq. cbn [Run.bind].
  split; [ | split].
  - intros hook e Hhook Hfail. rewrite Hhook, Hfail. cbn [Run.bind app].
    rewrite <- !app_assoc. reflexivity.
  - intros hook text o Hhook Hok Hgen Hout Hwrite.
    rewrite Hhook, Hok. cbn [Run.bind]. rewrite Hgen, Hout.
    cbn [Run.bind resolvePath]. rewrite Habs, Hwrite.
    unfold Run.emit. cbn [Run.bind app].
    rewrite <- !app_assoc. reflexivity.
  - intros text o Hhook Hgen Hout Hwrite.
    rewrite Hhook. unfold Run.ret. cbn [Run.bind]. rewrite Hgen, Hout.
    cbn [Run.bind resolvePath]. rewrite Habs, Hwrite.
    unfold Run.emit. cbn [Run.bind app].
    rewrite <- !app_assoc. reflexivity.
Qed.

End Callbacks.

(* ------------------------------------------------------------------ *)
(** ** One profile's failure and the other profiles *)

Section Containment.

Variables Json Defn : Type.
Variable env : Env Json Defn.

(** A call that belongs to a profile other than [k]. *)
Definition foreign (k : string) (en : Entry Json Defn) : bool :=
  match fst en with
  | Some k' => negb (String.eqb k' k)
  | None => false
  end.

(** What a trace says about the profiles other than [k]. *)
Definition siblings (k : string) (tr : Trace Json Defn) : Trace Json Defn :=
  filter (foreign k) tr.

(** The configuration with profile [k] taken out. *)
Definition without (k : string) (config : Config) : Config :=
  filter (fun kp => negb (String.eqb (fst kp) k)) config.

(** Profile [k] is isolated in a run: the other profiles are processed
    exactly as in the run of the configuration without [k]. *)
Definition isolated (schedule : list Pending -> list Pending)
  (config : Config) (k : string) : Prop :=
  siblings k (snd (runFrom env schedule (Returned config)))
  = siblings k (snd (runFrom env schedule (Returned (without k config)))).

Lemma siblings_own k tr : Forall (inCallback k) tr -> siblings k tr = [].
Proof.
  induction 1 as [| en r [Htag _] _ IH]; [reflexivity | ].
  unfold siblings in *. simpl. unfold foreign at 1. rewrite Htag.
  rewrite String.eqb_refl. exact IH.
Qed.

Lemma siblings_app k tr1 tr2 :
  siblings k (tr1 ++ tr2)%list = (siblings k tr1 ++ siblings k tr2)%list.
Proof. apply filter_app. Qed.

(** Taking a request whose callback returns out of the queue changes
    neither how the loop ends nor what the other profiles do. *)
Lemma eventLoop_skip before pd after :
  fst (complete env pd) = Returned tt ->
  fst (eventLoop env (before ++ pd :: after)%list)
  = fst (eventLoop env (before ++ after)%list)
  /\ siblings (owner pd) (snd (eventLoop env (before ++ pd :: after)%list))
     = siblings (owner pd) (snd (eventLoop env (before ++ after)%list)).
Proof.
  intros Hret. induction before as [| b before IH].
  - cbn [app eventLoop]. unfold Run.bind.
    pose proof (complete_inCallback env pd) as Hown. unfold RunFacts.all in Hown.
    destruct (complete env pd) as [[[]|e] tr]; [ | discriminate].
    destruct (eventLoop env after) as [r tr']. cbn [fst snd] in *.
    split; [reflexivity | ].
    rewrite siblings_app, (siblings_own Hown). reflexivity.
  - cbn [app eventLoop]. unfold Run.bind.
    destruct (complete env b) as [[[]|e] trb].
    + destruct IH as [IH1 IH2].
      destruct (eventLoop env (before ++ pd :: after)%list) as [r1 t1].
      destruct (eventLoop env (before ++ after)%list) as [r2 t2].
      cbn [fst snd] in *. split; [exact IH1 | ].
      rewrite !siblings_app, IH2. reflexivity.
    + split; reflexivity.
Qed.

(** C1, as the code has it.  A read or fetch that fails, and a document that
    does not parse, are dealt with inside that profile's callback, which
    logs (the path or URL for a failed source, the profile's name for a
    syntax error) and returns normally; the callbacks of all other requests
    then run exactly as they do without that request.  A validation
    failure is not caught per profile: it leaves the loop of
    [processInputs], the top-level handler reports it once, the profiles
    before the failing one are processed as they are without it, and the
    failing profile and all profiles after it are left untouched. *)
Theorem failures_contained :
  (forall k p path err,
      fs_readFile env path = Threw err ->
      complete env (PendingRead k p path)
      = (Returned tt,
         tagged k [ CliError ("Cannot read swagger file '" ++ show (file p) ++ "'.");
                    CliErrorExn err ]))
  /\ (forall k p u err,
         needle_get env u = Threw err ->
         complete env (PendingGet k p u)
         = (Returned tt,
            tagged k [ CliError ("Cannot read swagger URL '" ++ show (url p) ++ "'.");
                       CliErrorExn err ]))
  /\ (forall k p path text e,
         fs_readFile env path = Returned text -> JSON_parse env text = Threw e ->
         complete env (PendingRead k p path)
         = (Returned tt,
            (Some k, CliError ("Invalid swagger source for profile '" ++ k ++ "'."))
            :: tagged k (tl (reportInvalidSource Json Defn k e))))
  /\ (forall k p u text e,
         needle_get env u = Returned (SwaggerText text) ->
         JSON_parse env text = Threw e ->
         complete env (PendingGet k p u)
         = (Returned tt,
            (Some k, CliError ("Invalid swagger source for profile '" ++ k ++ "'."))
            :: tagged k (tl (reportInvalidSource Json Defn k e))))
  /\ (forall before pd after,
         fst (complete env pd) = Returned tt ->
         fst (eventLoop env (before ++ pd :: after)%list)
         = fst (eventLoop env (before ++ after)%list)
         /\ siblings (owner pd) (snd (eventLoop env (before ++ pd :: after)%list))
            = siblings (owner pd) (snd (eventLoop env (before ++ after)%list)))
  /\ (forall c1 c2 k p c1' tr1,
         truthyProp (skip p) = false -> rejected p = true ->
         processInputs env c1 = (Returned tt, c1', tr1) ->
         exists ex,
           processInputs env (c1 ++ (k, p) :: c2)%list
           = (Threw ex, (c1' ++ (k, p) :: c2)%list, tr1)
           /\ exported env (Returned (c1 ++ (k, p) :: c2)%list)
              = (tr1 ++ reportTopLevel Json Defn ex)%list).
Proof.
  split; [ | split; [ | split; [ | split; [ | split]]]].
  - intros k p path err H. simpl. rewrite H. reflexivity.
  - intros k p u err H. simpl. rewrite H. reflexivity.
  - intros k p path text e Hread Hparse. simpl. rewrite Hread.
    unfold readFileCallback.
    rewrite (@handleSwagger_invalid _ _ env (SwaggerText text) p k e Hparse).
    reflexivity.
  - intros k p u text e Hget Hparse. simpl. rewrite Hget.
    unfold needleCallback.
    rewrite (@handleSwagger_invalid _ _ env (SwaggerText text) p k e Hparse).
    reflexivity.
  - intros before pd after H. apply eventLoop_skip. exact H.
  - intros c1 c2 k p c1' tr1 Hs Hr H1.
    exists unboundProfileKey.
    assert (Hall : processInputs env (c1 ++ (k, p) :: c2)%list
                   = (Threw unboundProfileKey, (c1' ++ (k, p) :: c2)%list, tr1)).
    { rewrite processInputs_app, H1. cbn [processInputs].
      rewrite (@turn_rejected _ _ env k p Hs Hr).
      rewrite app_nil_r. reflexivity. }
    split; [exact Hall | ].
    unfold exported. rewrite Hall. reflexivity.
Qed.

End Containment.

(* ------------------------------------------------------------------ *)
(** ** The properties on a concrete run *)

(** Three profiles; the second one names no input. *)
Definition threeProfiles : Config :=
  [ ("one", Demo.petstore); ("two", Demo.sourceless); ("three", Demo.remote) ].

Definition withReserved : Config :=
  [ ("one", Demo.petstore); ("api", Demo.reserved) ].

Definition withBoth : Config :=
  [ ("both", Demo.both); ("three", Demo.remote) ].

Lemma resolve_absolute q :
  Demo.resolve "/work" (Demo.resolve "/work" q) = Demo.resolve "/work" q.
Proof.
  unfold Demo.resolve at 2 3. destruct (String.prefix "/" q) eqn:Hq.
  - unfold Demo.resolve. rewrite Hq. reflexivity.
  - reflexivity.
Defined.

(** C1 as stated fails: in the run of [threeProfiles] the validation
    failure of profile "two" ends the loop, so no profile other than "one"
    makes any call and profile "three" is never processed, while without
    profile "two" the artifact of "three" is written; and the only report
    of the failure does not name the profile. *)
Lemma validation_failure_stops_later_profiles :
  (~ isolated (Demo.env []) Demo.fifo threeProfiles "two")
  /\ siblings "one" (snd (runFrom (Demo.env []) Demo.fifo (Returned threeProfiles)))
     = []
  /\ In (Some "three",
         FsWriteFileSync "/work/remote.ts"
           (JsString.join Demo.newline ["// generated"; "{ remote }"]))
        (snd (runFrom (Demo.env []) Demo.fifo
                (Returned (without "two" threeProfiles))))
  /\ In (None, ConsoleLog (ReferenceError "profileKey is not defined"))
        (snd (runFrom (Demo.env []) Demo.fifo (Returned threeProfiles))).
Proof.
  split; [ | split; [ | split]].
  - unfold isolated. vm_compute. discriminate.
  - vm_compute. reflexivity.
  - vm_compute. tauto.
  - vm_compute. tauto.
Qed.

Lemma failures_contained_witness :
  exists ex,
    processInputs (Demo.env []) threeProfiles
    = (Threw ex,
       [ ("one", populated Demo.petstore); ("two", Demo.sourceless);
         ("three", Demo.remote) ],
       snd (processInputs (Demo.env []) [("one", Demo.petstore)]))
    /\ exported (Demo.env []) (Returned threeProfiles)
       = (snd (processInputs (Demo.env []) [("one", Demo.petstore)])
            ++ reportTopLevel Demo.Json Demo.Defn ex)%list.
Proof.
  destruct (failures_contained (Demo.env [])) as (_ & _ & _ & _ & _ & H).
  apply (H [("one", Demo.petstore)] [("three", Demo.remote)] "two" Demo.sourceless
           [("one", populated Demo.petstore)]
           (snd (processInputs (Demo.env []) [("one", Demo.petstore)])));
    reflexivity.
Defined.

Lemma missing_source_fails_before_io_witness :
  (NoDup (keys threeProfiles)
   /\ In ("two", Demo.sourceless) threeProfiles
   /\ truthyProp (file Demo.sourceless) = false
   /\ truthyProp (url Demo.sourceless) = false)
  /\ (exists e, verifyProfile (Demo.env []) Demo.sourceless = (Threw e, Demo.sourceless))
  /\ (forall en,
         In en (snd (runFrom (Demo.env []) Demo.fifo (Returned threeProfiles))) ->
         fst en <> Some "two").
Proof.
  assert (Hnd : NoDup (keys threeProfiles)) by distinct_keys.
  assert (Hin : In ("two", Demo.sourceless) threeProfiles) by (right; left; reflexivity).
  split; [repeat split; assumption | ].
  destruct (@missing_source_fails_before_io _ _ (Demo.env []) Demo.fifo
              threeProfiles "two" Demo.sourceless Hnd Hin fifo_admissible
              eq_refl eq_refl) as (A & _ & B & _).
  split; assumption.
Defined.

Lemma reserved_generator_fails_before_resolution_witness :
  let shouting := Demo.profile None (Some "https://x/doc.json") (Some "out.cs")
                    (Some "CoRe") in
  let config := [("one", Demo.petstore); ("api", shouting)] in
  (NoDup (keys config) /\ JsString.eqIgnoreCase "CoRe" "core" = true
   /\ JsString.matchLanguage "CSharp-Language" = true)
  /\ (exists e, verifyProfile (Demo.env []) shouting = (Threw e, shouting))
  /\ (forall u q,
         ~ In (Some "api", NeedleGet u q)
              (snd (runFrom (Demo.env []) Demo.fifo (Returned config)))).
Proof.
  cbv zeta.
  assert (Hnd : NoDup (keys [("one", Demo.petstore);
                             ("api", Demo.profile None (Some "https://x/doc.json")
                                       (Some "out.cs") (Some "CoRe"))]))
    by distinct_keys.
  split; [repeat split; [assumption | .. ]; reflexivity | ].
  destruct (@reserved_generator_fails_before_resolution _ _ (Demo.env []) Demo.fifo
              _ "api" _ "CoRe" Hnd (or_intror (or_introl eq_refl)) fifo_admissible
              eq_refl (or_introl eq_refl)) as (A & _ & B & _).
  split; assumption.
Defined.

Lemma skipped_profile_is_omitted_witness :
  let idle := Demo.skipped Demo.sourceless in
  processInputs_turn (Demo.env []) "two" idle = (Returned tt, idle, [])
  /\ (forall en,
         In en (snd (runFrom (Demo.env []) Demo.fifo
                       (Returned ([("one", Demo.petstore)]
                                    ++ ("two", idle) :: [("three", Demo.remote)])%list))) ->
         fst en <> Some "two").
Proof.
  cbv zeta.
  assert (Hnd : NoDup (keys ([("one", Demo.petstore)]
                               ++ ("two", Demo.skipped Demo.sourceless)
                               :: [("three", Demo.remote)])%list))
    by (simpl; distinct_keys).
  destruct (@skipped_profile_is_omitted _ _ (Demo.env []) Demo.fifo
              [("one", Demo.petstore)] [("three", Demo.remote)] "two"
              (Demo.skipped Demo.sourceless) eq_refl Hnd fifo_admissible)
    as (A & _ & B).
  split; assumption.
Defined.

Lemma file_source_wins_witness :
  (NoDup (keys withBoth) /\ rejected Demo.both = false
   /\ truthyProp (file Demo.both) = true /\ truthyProp (url Demo.both) = true)
  /\ (exists f,
         file Demo.both = Some f
         /\ processInputs_turn (Demo.env []) "both" Demo.both =
            (Returned tt, populated Demo.both,
             [ (Some "both",
                CliInfo ("[" ++ "both" ++ "] Input swagger file : "
                           ++ Demo.resolve "/work" f));
               (Some "both", FsReadFile (Demo.resolve "/work" f) (populated Demo.both)) ]))
  /\ (forall u q,
         ~ In (Some "both", NeedleGet u q)
              (snd (runFrom (Demo.env []) Demo.fifo (Returned withBoth)))).
Proof.
  assert (Hnd : NoDup (keys withBoth)) by distinct_keys.
  split; [repeat split; [assumption | .. ]; reflexivity | ].
  exact (@file_source_wins _ _ (Demo.env []) Demo.fifo withBoth "both" Demo.both
           Hnd (or_introl eq_refl) fifo_admissible eq_refl eq_refl eq_refl eq_refl).
Defined.

(** The outside of [Demo.env], with a [JSON.parse] that throws [e]. *)
Definition jsonFailing (e : JsExn) : Env Demo.Json Demo.Defn :=
  {| currentDir := currentDir (Demo.env []);
     EOL := EOL (Demo.env []);
     path_resolve := path_resolve (Demo.env []);
     fs_existsSync := fs_existsSync (Demo.env []);
     require_config := require_config (Demo.env []);
     fs_readFile := fs_readFile (Demo.env []);
     needle_get := needle_get (Demo.env []);
     fs_writeFileSync := fs_writeFileSync (Demo.env []);
     JSON_parse := fun _ => Threw e;
     JSON_stringify := JSON_stringify (Demo.env []);
     Parser_parse := Parser_parse (Demo.env []);
     require_generator := require_generator (Demo.env []) |}.

(** A [SyntaxError] with a message and no line number, and one with a
    line number too. *)
Lemma invalid_json_aborts_only_its_profile_witness :
  handleSwagger
    (jsonFailing (SyntaxError None (Some "Unexpected token } in JSON at position 9")))
    (SwaggerText "{ paths, }") (populated Demo.broken) "b"
  = (Returned tt,
     [ (Some "b", CliError "Invalid swagger source for profile 'b'.");
       (Some "b", CliError "Unexpected token } in JSON at position 9") ])
  /\ handleSwagger
       (jsonFailing (SyntaxError (Some 12) (Some "expected property name")))
       (SwaggerText "{ paths, }") (populated Demo.broken) "b"
     = (Returned tt,
        [ (Some "b", CliError "Invalid swagger source for profile 'b'.");
          (Some "b", CliError "At line number 12.");
          (Some "b", CliError "expected property name") ]).
Proof.
  split.
  - refine (proj1 (proj2 (@invalid_json_aborts_only_its_profile _ _
                            (jsonFailing _) "{ paths, }" (populated Demo.broken)
                            "b" _ eq_refl))
              None _ eq_refl _ (or_introl eq_refl)).
    discriminate.
  - refine (proj1 (@invalid_json_aborts_only_its_profile _ _
                     (jsonFailing _) "{ paths, }" (populated Demo.broken)
                     "b" _ eq_refl)
              11 _ eq_refl _).
    discriminate.
Defined.

Definition strictProfile : Profile :=
  populated (Demo.profile (Some "petstore.json") None
               (Some "petstore.ts") (Some "strict")).

Lemma hook_runs_before_generate_witness :
  handleSwagger (Demo.env []) (SwaggerValue "{ remote }") strictProfile "s"
  = (Threw (JsError "options.module is required"),
     [ (Some "s", ParserParse "{ remote }");
       (Some "s", RequireModule "swagen-strict");
       (Some "s", ValidateProfile strictProfile) ]).
Proof.
  exact (proj1 (@hook_runs_before_generate _ _ (Demo.env []) (SwaggerValue "{ remote }")
                  "{ remote }" ["{ remote }"] strictProfile {| definition := None |} "s"
                  "swagen-strict" Demo.strict [] resolve_absolute
                  eq_refl eq_refl eq_refl eq_refl eq_refl eq_refl)
           _ (JsError "options.module is required") eq_refl eq_refl).
Defined.

(* ------------------------------------------------------------------ *)
(** ** The code assembler, [lib/generator/index.js] *)

Module Assembler.

Section Assemble.

(** A definition lists resources and models; what they contain is the
    business of the sub-generators. *)
Variables Resource Model : Type.

Record ApiDefinition := {
  resources : list Resource;
  models : list Model
}.

(** [os.EOL] *)
Variable newline : string.

(** The lines each sub-generator produces for the whole definition, for one
    resource and for one model. *)
Variable boilerplate : ApiDefinition -> list string.
Variable serviceLines : Resource -> list string.
Variable modelLines : Model -> list string.

(** JavaScript arrays are objects: they live in a heap and are passed by
    reference.  [code] is one array, created by the first sub-generator and
    then handed to the two others and to [push] and [join]. *)
Definition Heap := list (list string).
Definition Ref := nat.

(** A new array. *)
Definition alloc (h : Heap) (a : list string) : Ref * Heap :=
  (length h, (h ++ [a])%list).

(** The contents of an array; a dangling reference reads as empty. *)
Definition deref (h : Heap) (r : Ref) : list string := nth r h [].

Fixpoint store (h : Heap) (r : Ref) (a : list string) : Heap :=
  match h, r with
  | [], _ => []
  | _ :: t, O => a :: t
  | x :: t, S r' => x :: store t r' a
  end.

(** [code.push(line, ...)]: the array grows at its end, in place. *)
Definition push (h : Heap) (code : Ref) (lines : list string) : Heap :=
  store h code (deref h code ++ lines)%list.

(** Modelled from the spec: [./generate-initial-code] is not among the
    sources.  It returns a new sequence holding the initial, boilerplate
    lines. *)
Definition generateInitialCode (definition : ApiDefinition) (h : Heap)
  : Ref * Heap :=
  alloc h (boilerplate definition).

(** Modelled from the spec: [./generate-services] is not among the sources.
    It appends the service lines, resource by resource, to the shared
    sequence, and neither replaces nor reorders what is there. *)
Definition generateServices (definition : ApiDefinition) (code : Ref) (h : Heap)
  : Heap :=
  push h code (flat_map serviceLines (resources definition)).

(** Modelled from the spec: [./generate-models] is not among the sources.
    It appends the model lines, model by model, to the shared sequence. *)
Definition generateModels (definition : ApiDefinition) (code : Ref) (h : Heap)
  : Heap :=
  push h code (flat_map modelLines (models definition)).

(** [module.exports = function(definition)]: the text returned, and the
    heap the call leaves behind. *)
Definition assemble (definition : ApiDefinition) (h : Heap) : string * Heap :=
  let (code, h) := generateInitialCode definition h in
  let h := generateServices definition code h in
  let h := push h code [EmptyString] in
  let h := generateModels definition code h in
  (JsString.join newline (deref h code), h).

(** The lines the output is made of, in order. *)
Definition expectedLines (definition : ApiDefinition) : list string :=
  (boilerplate definition
     ++ flat_map serviceLines (resources definition)
     ++ [EmptyString]
     ++ flat_map modelLines (models definition))%list.

Lemma append_assoc (a b c : string) : (a ++ b) ++ c = a ++ (b ++ c).
Proof. induction a as [| x a IH]; simpl; [reflexivity | rewrite IH; reflexivity]. Qed.

Lemma join_concat sep (lines : list string) :
  JsString.join sep lines = String.concat sep lines.
Proof.
  induction lines as [| l rest IH]; [reflexivity | ].
  destruct rest as [| l' rest]; [reflexivity | ].
  change (JsString.join sep (l :: l' :: rest))
    with (l ++ sep ++ JsString.join sep (l' :: rest)).
  rewrite IH. reflexivity.
Qed.

Lemma concat_app sep (a b : list string) :
  a <> [] -> b <> [] ->
  String.concat sep (a ++ b)%list
  = String.concat sep a ++ sep ++ String.concat sep b.
Proof.
  intros Ha Hb. induction a as [| x a IH]; [contradiction | ].
  destruct a as [| y a].
  - simpl. destruct b; [contradiction | reflexivity].
  - change (String.concat sep ((x :: y :: a) ++ b)%list)
      with (x ++ sep ++ String.concat sep ((y :: a) ++ b)%list).
    rewrite IH by discriminate.
    change (String.concat sep (x :: y :: a))
      with (x ++ sep ++ String.concat sep (y :: a)).
    rewrite !append_assoc. reflexivity.
Qed.

Lemma deref_new (h : Heap) (a : list string) : deref (h ++ [a])%list (length h) = a.
Proof. unfold deref. rewrite app_nth2, Nat.sub_diag by lia. reflexivity. Qed.

Lemma deref_old (h : Heap) (a : list string) r :
  r < length h -> deref (h ++ [a])%list r = deref h r.
Proof. intros Hr. unfold deref. apply app_nth1. exact Hr. Qed.

Lemma store_new (h : Heap) (a b : list string) :
  store (h ++ [a])%list (length h) b = (h ++ [b])%list.
Proof. induction h as [| x h IH]; simpl; [reflexivity | rewrite IH; reflexivity]. Qed.

Lemma push_new (h : Heap) (a lines : list string) :
  push (h ++ [a])%list (length h) lines = (h ++ [a ++ lines])%list.
Proof. unfold push. rewrite deref_new, store_new. reflexivity. Qed.

(** What one call does to the heap: one array more, holding the lines. *)
Lemma assemble_heap (definition : ApiDefinition) (h : Heap) :
  assemble definition h
  = (JsString.join newline (expectedLines definition),
     (h ++ [expectedLines definition])%list).
Proof.
  unfold assemble, generateInitialCode, generateServices, generateModels, alloc.
  rewrite !push_new, deref_new. unfold expectedLines.
  rewrite <- !app_assoc. reflexivity.
Qed.

(** C6.  Whatever arrays the heap holds already, the assembler returns the
    boilerplate lines, then the service lines of every resource in resource
    order, then one empty line, then the model lines of every model in
    model order, joined by the line terminator (the text is the
    concatenation of these lines with the terminator between consecutive
    ones); in the text the two parts are therefore separated by exactly one
    blank line, and the text ends with a terminator when there are no model
    lines.  The call builds its lines in an array of its own and touches no
    array that was there before, so assembling the same definition again,
    in the heap an earlier call has left behind, gives the same text. *)
Theorem assembler_order (definition : ApiDefinition) (h : Heap) :
  let head := (boilerplate definition
                 ++ flat_map serviceLines (resources definition))%list in
  let tail := flat_map modelLines (models definition) in
  fst (assemble definition h)
  = String.concat newline (head ++ [EmptyString] ++ tail)%list
  /\ fst (assemble definition h)
     = String.concat newline head
         ++ match head with [] => EmptyString | _ :: _ => newline end
         ++ match tail with
            | [] => EmptyString
            | _ :: _ => newline ++ String.concat newline tail
            end
  /\ deref (snd (assemble definition h)) (length h)
     = (head ++ [EmptyString] ++ tail)%list
  /\ length (snd (assemble definition h)) = S (length h)
  /\ (forall r, r < length h ->
                deref (snd (assemble definition h)) r = deref h r)
  /\ fst (assemble definition (snd (assemble definition h)))
     = fst (assemble definition h)
  /\ (forall other,
         fst (assemble definition (snd (assemble other h)))
         = fst (assemble definition h)).
Proof.
  intros head tail. rewrite !assemble_heap. cbn [fst snd].
  assert (Hlines : expectedLines definition = (head ++ [EmptyString] ++ tail)%list).
  { unfold expectedLines, head, tail. rewrite <- !app_assoc. reflexivity. }
  rewrite Hlines, join_concat.
  split; [reflexivity | ].
  split.
  { destruct head as [| x head'], tail as [| y tail'].
    - reflexivity.
    - reflexivity.
    - rewrite concat_app by discriminate. reflexivity.
    - rewrite concat_app by discriminate.
      change (String.concat newline ([EmptyString] ++ y :: tail')%list)
        with (EmptyString ++ newline ++ String.concat newline (y :: tail')).
      reflexivity. }
  split; [apply deref_new | ].
  split; [rewrite length_app; simpl; lia | ].
  split; [intros r Hr; apply deref_old; exact Hr | ].
  split; [reflexivity | ].
  intros other. rewrite !assemble_heap. cbn [fst snd].
  rewrite Hlines, join_concat. reflexivity.
Qed.

End Assemble.

End Assembler.

(** An assembly on a heap that already holds an array: the text, written
    out, for two resources and one model. *)
Lemma assembler_order_witness :
  let d := {| Assembler.resources := ["pets"; "users"];
              Assembler.models := ["Pet"] |} in
  let nl := Demo.newline in
  fst (Assembler.assemble nl
         (fun _ => ["'use strict';"])
         (fun r => ["// service " ++ r; "class " ++ r ++ " {}"])
         (fun m => ["interface " ++ m ++ " {}"]) d [["left over"]])
  = "'use strict';" ++ nl ++ "// service pets" ++ nl ++ "class pets {}" ++ nl
      ++ "// service users" ++ nl ++ "class users {}" ++ nl
      ++ nl ++ "interface Pet {}".
Proof.
  cbv zeta.
  rewrite (proj1 (Assembler.assembler_order Demo.newline
                    (fun _ => ["'use strict';"])
                    (fun r => ["// service " ++ r; "class " ++ r ++ " {}"])
                    (fun m => ["interface " ++ m ++ " {}"])
                    {| Assembler.resources := ["pets"; "users"];
                       Assembler.models := ["Pet"] |} [["left over"]])).
  reflexivity.
Defined.

(* ------------------------------------------------------------------ *)
(** ** Two complete runs *)

(** A single valid file profile: the read is issued, the document is
    normalised, the package generates, the artifact is written; no
    diagnostic file is written, [debug] having been defaulted to empty. *)
Example petstore_run :
  runFrom (Demo.env []) Demo.fifo (Returned [("petstore", Demo.petstore)])
  = (Returned tt,
     [ (Some "petstore", CliInfo "[petstore] Input swagger file : /work/petstore.json");
       (Some "petstore", FsReadFile "/work/petstore.json" (populated Demo.petstore));
       (Some "petstore", ParserParse "{ paths }");
       (Some "petstore", RequireModule "swagen-typescript");
       (Some "petstore", Generate ["{ paths }"] (populated Demo.petstore));
       (Some "petstore",
        FsWriteFileSync "/work/petstore.ts"
          (JsString.join Demo.newline ["// generated"; "{ paths }"]));
       (Some "petstore", CliInfo "[petstore] Code generated at '/work/petstore.ts'.") ]).
Proof. reflexivity. Qed.

(** No configuration file: the message is printed and the help shown. *)
Example no_configuration_run :
  exists message,
    run {| currentDir := "/empty";
           EOL := Demo.newline;
           path_resolve := Demo.resolve;
           fs_existsSync := fun _ => false;
           require_config := fun _ => Returned [];
           fs_readFile := fs_readFile (Demo.env []);
           needle_get := needle_get (Demo.env []);
           fs_writeFileSync := fs_writeFileSync (Demo.env []);
           JSON_parse := JSON_parse (Demo.env []);
           JSON_stringify := JSON_stringify (Demo.env []);
           Parser_parse := Parser_parse (Demo.env []);
           require_generator := require_generator (Demo.env []) |}
        Demo.fifo
    = (Returned tt, [ (None, CliError message); (None, HelpCommand) ]).
Proof. eexists. reflexivity. Qed.

(** Three profiles, the second one pointing at a URL that cannot be
    fetched: the failure is reported in the callback of the second profile
    and the artifacts of the first and the third are written as they are
    without the second. *)
Example fetch_failure_is_isolated :
  let unreachable :=
    Demo.profile None (Some "https://down/doc.json") (Some "down.ts")
      (Some "typescript") in
  let config := [("one", Demo.petstore); ("two", unreachable); ("three", Demo.remote)] in
  isolated (Demo.env []) Demo.fifo config "two"
  /\ In (Some "two", CliError "Cannot read swagger URL 'https://down/doc.json'.")
        (snd (runFrom (Demo.env []) Demo.fifo (Returned config)))
  /\ In (Some "three",
         FsWriteFileSync "/work/remote.ts"
           (JsString.join Demo.newline ["// generated"; "{ remote }"]))
        (snd (runFrom (Demo.env []) Demo.fifo (Returned config))).
Proof.
  cbv zeta. split; [ | split].
  - unfold isolated. vm_compute. reflexivity.
  - vm_compute. tauto.
  - vm_compute. tauto.
Qed.

(* ------------------------------------------------------------------ *)
(** ** More on the validator and the generator name *)

Section GeneratorNames.

Variables Json Defn : Type.
Variable env : Env Json Defn.

Lemma toLowerCase_app (a b : string) :
  JsString.toLowerCase (a ++ b)
  = JsString.toLowerCase a ++ JsString.toLowerCase b.
Proof.
  induction a as [| c a IH]; simpl; [reflexivity | rewrite IH; reflexivity].
Qed.

Lemma startsWith_dot (g : string) :
  JsString.startsWith g "." = true -> exists r, g = String "."%char r.
Proof.
  unfold JsString.startsWith. destruct g as [| c r]; [discriminate | ].
  cbn [String.prefix].
  destruct (ascii_dec "."%char c) as [<- | Hne]; [ | discriminate].
  intros _. exists r. reflexivity.
Qed.

(** X1.  A generator given as a path that starts with a dot is never taken
    for a reserved name, whatever follows the dot (also a name ending in
    "-language"): a profile with a source, an output and such a generator
    passes [verifyProfile], and the module later handed to [require] is that
    path resolved against the working directory. *)
Theorem local_path_generator_is_accepted (p : Profile) (g : string) :
  generator p = Some g ->
  JsString.startsWith g "." = true ->
  truthyProp (file p) || truthyProp (url p) = true ->
  truthyProp (output p) = true ->
  JsString.eqIgnoreCase g "core" = false
  /\ JsString.matchLanguage g = false
  /\ verifyProfile env p = (Returned tt, populated p)
  /\ generatorModule env (populated p)
     = Returned (path_resolve env (currentDir env) g).
Proof.
  intros Hg Hdot Hsrc Hout.
  destruct (startsWith_dot _ Hdot) as [r ->].
  assert (H1 : JsString.eqIgnoreCase (String "."%char r) "core" = false) by reflexivity.
  assert (H2 : JsString.matchLanguage (String "."%char r) = false) by reflexivity.
  repeat split; try assumption.
  - rewrite verifyProfile_cases. unfold rejected. rewrite Hg. cbn [show truthyProp].
    rewrite H1, H2, Hout.
    destruct (truthyProp (file p)), (truthyProp (url p)); try discriminate; reflexivity.
  - unfold generatorModule. change (generator (populated p)) with (generator p).
    rewrite Hg, Hdot. reflexivity.
Qed.

(** X2.  A profile that has passed [verifyProfile] and names its generator
    by package name (no leading dot) makes [require] load "swagen-"
    followed by that name.  This is never "swagen-core" in any letter case.
    It is a name of the reserved "-language" family exactly when the
    generator is "language" or "-language" (in any letter case): these two
    names pass the validator, which tests the generator as written and
    wants a non-empty stem before the suffix. *)
Theorem package_loaded_for_a_validated_name (p : Profile) (g : string) :
  rejected p = false ->
  generator p = Some g ->
  JsString.startsWith g "." = false ->
  generatorModule env (populated p) = Returned ("swagen-" ++ g)
  /\ JsString.toLowerCase ("swagen-" ++ g) <> "swagen-core"
  /\ JsString.matchLanguage ("swagen-" ++ g)
     = (String.eqb (JsString.toLowerCase g) "language"
        || String.eqb (JsString.toLowerCase g) "-language")%bool.
Proof.
  intros Hr Hg Hdot. unfold rejected in Hr. rewrite Hg in Hr. cbn [show] in Hr.
  apply orb_false_iff in Hr. destruct Hr as [Hr Hlang].
  apply orb_false_iff in Hr. destruct Hr as [_ Hcore].
  repeat split.
  - unfold generatorModule. change (generator (populated p)) with (generator p).
    rewrite Hg, Hdot. reflexivity.
  - rewrite toLowerCase_app. change (JsString.toLowerCase "swagen-") with "swagen-".
    intros Heq. cbn [append] in Heq. injection Heq as Heq.
    unfold JsString.eqIgnoreCase in Hcore. rewrite Heq in Hcore. discriminate.
  - cbn [append JsString.matchLanguage]. unfold JsString.eqIgnoreCase.
    cbn [JsString.toLowerCase]. rewrite Hlang.
    change (JsString.isWordOrDash "s") with true.
    change (JsString.isWordOrDash "w") with true.
    change (JsString.isWordOrDash "a") with true.
    change (JsString.isWordOrDash "g") with true.
    change (JsString.isWordOrDash "e") with true.
    change (JsString.isWordOrDash "n") with true.
    change (JsString.isWordOrDash "-") with true.
    change (JsString.lowerAscii "w") with "w"%char.
    change (JsString.lowerAscii "a") with "a"%char.
    change (JsString.lowerAscii "g") with "g"%char.
    change (JsString.lowerAscii "e") with "e"%char.
    change (JsString.lowerAscii "n") with "n"%char.
    change (JsString.lowerAscii "-") with "-"%char.
    cbn [String.eqb Ascii.eqb Bool.eqb andb orb].
    rewrite orb_false_r. reflexivity.
Qed.

End GeneratorNames.

Lemma local_path_generator_is_accepted_witness :
  let p := Demo.profile (Some "petstore.json") None (Some "out.ts")
             (Some "./my-language") in
  verifyProfile (Demo.env []) p = (Returned tt, populated p)
  /\ generatorModule (Demo.env []) (populated p) = Returned "/work/./my-language".
Proof.
  cbv zeta.
  destruct (@local_path_generator_is_accepted _ _ (Demo.env [])
              (Demo.profile (Some "petstore.json") None (Some "out.ts")
                 (Some "./my-language"))
              "./my-language" eq_refl eq_refl eq_refl eq_refl) as (_ & _ & A & B).
  split; assumption.
Defined.

Lemma package_loaded_for_a_validated_name_witness :
  let p := Demo.profile (Some "petstore.json") None (Some "out.ts")
             (Some "Language") in
  rejected p = false
  /\ generatorModule (Demo.env []) (populated p) = Returned "swagen-Language"
  /\ JsString.matchLanguage "swagen-Language" = true.
Proof.
  cbv zeta. split; [reflexivity | ].
  destruct (@package_loaded_for_a_validated_name _ _ (Demo.env [])
              (Demo.profile (Some "petstore.json") None (Some "out.ts")
                 (Some "Language"))
              "Language" eq_refl eq_refl eq_refl) as (A & _ & B).
  split; [exact A | exact (eq_trans B eq_refl)].
Defined.

(* ------------------------------------------------------------------ *)
(** ** More on the loop of [processInputs] *)

Section LoopOutcome.

Variables Json Defn : Type.
Variable env : Env Json Defn.

(** A profile the loop gets past: skipped, or passing every check. *)
Definition acceptable (p : Profile) : bool :=
  truthyProp (skip p) || negb (rejected p).

(** The profile object after its turn, when the loop gets past it. *)
Definition settle (p : Profile) : Profile :=
  if truthyProp (skip p) then p else populated p.

Definition normalised (config : Config) : Config :=
  map (fun kp => (fst kp, settle (snd kp))) config.

(** The request a profile leaves in flight, if any. *)
Definition requestsOf (kp : string * Profile) : list Pending :=
  if truthyProp (skip (snd kp)) then []
  else [requestFor env (fst kp) (populated (snd kp))].

(** The calls of a turn the loop gets past. *)
Definition turnCalls (kp : string * Profile) : Trace Json Defn :=
  let (k, p) := kp in
  if truthyProp (skip p) then []
  else
    match requestFor env k (populated p) with
    | PendingRead _ q path =>
        [ (Some k, CliInfo ("[" ++ k ++ "] Input swagger file : " ++ path));
          (Some k, FsReadFile path q) ]
    | PendingGet _ q u =>
        [ (Some k, CliInfo ("[" ++ k ++ "] Input swagger URL : " ++ show u));
          (Some k, NeedleGet u q) ]
    end.

Lemma pending_append (tr1 tr2 : Trace Json Defn) :
  pending (tr1 ++ tr2)%list = (pending tr1 ++ pending tr2)%list.
Proof.
  induction tr1 as [| en r IH]; simpl; [reflexivity | ].
  destruct (requestOf en); simpl; rewrite IH; reflexivity.
Qed.

Lemma pending_turnCalls kp : pending (turnCalls kp) = requestsOf kp.
Proof.
  destruct kp as [k p]. unfold turnCalls, requestsOf. cbn [fst snd].
  destruct (truthyProp (skip p)); [reflexivity | ].
  unfold requestFor. destruct (file (populated p)) as [f|]; [ | reflexivity].
  destruct (truthy f); reflexivity.
Qed.

Lemma turn_acceptable k p :
  acceptable p = true ->
  processInputs_turn env k p = (Returned tt, settle p, turnCalls (k, p)).
Proof.
  unfold acceptable, settle, turnCalls. intros Hacc.
  destruct (truthyProp (skip p)) eqn:Hs.
  - apply turn_skipped. exact Hs.
  - cbn [orb] in Hacc. apply negb_true_iff in Hacc.
    unfold requestFor. change (file (populated p)) with (file p).
    change (url (populated p)) with (url p).
    destruct (file p) as [f|] eqn:Hf.
    + destruct (truthy f) eqn:Ht.
      * apply turn_file; assumption.
      * apply turn_url; try assumption. rewrite Hf. exact Ht.
    + apply turn_url; try assumption. rewrite Hf. reflexivity.
Qed.

Lemma turn_unacceptable k p :
  acceptable p = false ->
  processInputs_turn env k p = (Threw unboundProfileKey, p, []).
Proof.
  unfold acceptable. intros Hacc. apply orb_false_iff in Hacc.
  destruct Hacc as [Hs Hr]. apply negb_false_iff in Hr.
  apply turn_rejected; assumption.
Qed.

Lemma processInputs_acceptable (config : Config) :
  forallb (fun kp => acceptable (snd kp)) config = true ->
  processInputs env config
  = (Returned tt, normalised config, flat_map turnCalls config).
Proof.
  induction config as [| [k p] rest IH]; [reflexivity | ].
  cbn [forallb snd]. intros H. apply andb_true_iff in H. destruct H as [Hp Hrest].
  cbn [processInputs]. rewrite (turn_acceptable k _ Hp), (IH Hrest). reflexivity.
Qed.

Lemma pending_flat_map (config : Config) :
  pending (flat_map turnCalls config) = flat_map requestsOf config.
Proof.
  induction config as [| kp rest IH]; [reflexivity | ].
  cbn [flat_map]. rewrite pending_append, pending_turnCalls, IH. reflexivity.
Qed.

(** Where the loop stops: the first profile it does not get past. *)
Lemma first_unacceptable (config : Config) :
  forallb (fun kp => acceptable (snd kp)) config = false ->
  exists c1 k p c2,
    config = (c1 ++ (k, p) :: c2)%list
    /\ forallb (fun kp => acceptable (snd kp)) c1 = true
    /\ acceptable p = false.
Proof.
  induction config as [| [k p] rest IH]; [discriminate | ].
  cbn [forallb snd]. destruct (acceptable p) eqn:Hp.
  - cbn [andb]. intros H. destruct (IH H) as (c1 & k' & q & c2 & -> & Hc1 & Hq).
    exists ((k, p) :: c1), k', q, c2. repeat split; try assumption.
    cbn [forallb snd]. rewrite Hp, Hc1. reflexivity.
  - intros _. exists [], k, p, rest. repeat split. exact Hp.
Qed.

Lemma processInputs_stops c1 k p c2 :
  forallb (fun kp => acceptable (snd kp)) c1 = true ->
  acceptable p = false ->
  processInputs env (c1 ++ (k, p) :: c2)%list
  = (Threw unboundProfileKey, (normalised c1 ++ (k, p) :: c2)%list,
     flat_map turnCalls c1).
Proof.
  intros Hc1 Hp. rewrite processInputs_app, (processInputs_acceptable _ Hc1).
  cbn [processInputs]. rewrite (turn_unacceptable k _ Hp), app_nil_r. reflexivity.
Qed.

(** X3.  Whether it returns or throws, [processInputs] leaves the keys of
    the configuration and their order as they were: it only ever fills in
    defaults on profile objects. *)
Theorem processInputs_keeps_keys (config : Config) :
  keys (snd (fst (processInputs env config))) = keys config
  /\ length (snd (fst (processInputs env config))) = length config.
Proof.
  split; [ | apply processInputs_length].
  induction config as [| [k p] rest IH]; [reflexivity | ].
  cbn [processInputs].
  destruct (processInputs_turn env k p) as [[[[]|e] p'] tr]; [ | reflexivity].
  destruct (processInputs env rest) as [[r rest'] tr']. cbn [fst snd keys map] in *.
  unfold keys in IH. rewrite IH. reflexivity.
Qed.

(** X4.  On a configuration in which every profile is skipped or valid,
    [processInputs] returns normally; afterwards every non-skipped profile
    has its defaults and every skipped one is as before; the calls made
    are, profile by profile in configuration order, nothing for a skipped
    profile and for any other its info line immediately followed by its
    request - a file read if [file] is set, a fetch otherwise - so that
    exactly one request is in flight for each non-skipped profile. *)
Theorem valid_configuration_is_fully_dispatched (config : Config) :
  forallb (fun kp => acceptable (snd kp)) config = true ->
  processInputs env config
  = (Returned tt, normalised config, flat_map turnCalls config)
  /\ pending (snd (processInputs env config)) = flat_map requestsOf config
  /\ (forall k p, truthyProp (skip p) = true -> turnCalls (k, p) = [])
  /\ (forall k p f,
         truthyProp (skip p) = false -> file p = Some f -> truthy f = true ->
         turnCalls (k, p)
         = [ (Some k, CliInfo ("[" ++ k ++ "] Input swagger file : "
                                 ++ path_resolve env (currentDir env) f));
             (Some k, FsReadFile (path_resolve env (currentDir env) f)
                                 (populated p)) ])
  /\ (forall k p,
         truthyProp (skip p) = false -> truthyProp (file p) = false ->
         turnCalls (k, p)
         = [ (Some k, CliInfo ("[" ++ k ++ "] Input swagger URL : "
                                 ++ show (url p)));
             (Some k, NeedleGet (url p) (populated p)) ]).
Proof.
  intros H. rewrite (processInputs_acceptable _ H). cbn [fst snd].
  split; [reflexivity | split; [apply pending_flat_map | ]].
  split; [ | split].
  - intros k p Hs. unfold turnCalls. rewrite Hs. reflexivity.
  - intros k p f Hs Hf Ht. unfold turnCalls, requestFor. rewrite Hs.
    change (file (populated p)) with (file p). rewrite Hf, Ht. reflexivity.
  - intros k p Hs Hf. unfold turnCalls, requestFor. rewrite Hs.
    change (file (populated p)) with (file p).
    change (url (populated p)) with (url p).
    destruct (file p) as [f | ]; [ | reflexivity].
    cbn [truthyProp] in Hf. rewrite Hf. reflexivity.
Qed.

(** X5.  When [processInputs] throws, it has stopped at the first profile
    of the configuration that is neither skipped nor valid: the profiles
    before it have been processed (defaults filled, requests issued), that
    profile and all later ones are untouched, what is thrown is the
    [ReferenceError] of the unbound [profileKey], and the exported function
    prints it once with [console.log], after the calls already made; help
    is not shown. *)
Theorem processInputs_stops_at_first_invalid (config : Config) (e : JsExn) :
  fst (fst (processInputs env config)) = Threw e ->
  exists c1 k p c2,
    config = (c1 ++ (k, p) :: c2)%list
    /\ forallb (fun kp => acceptable (snd kp)) c1 = true
    /\ truthyProp (skip p) = false /\ rejected p = true
    /\ e = ReferenceError "profileKey is not defined"
    /\ snd (fst (processInputs env config))
       = (normalised c1 ++ (k, p) :: c2)%list
    /\ pending (snd (processInputs env config)) = flat_map requestsOf c1
    /\ exported env (Returned config)
       = (snd (processInputs env config) ++ [(None, ConsoleLog e)])%list.
Proof.
  intros Hthrow.
  destruct (forallb (fun kp => acceptable (snd kp)) config) eqn:Hall.
  - rewrite (processInputs_acceptable _ Hall) in Hthrow. discriminate.
  - destruct (first_unacceptable _ Hall) as (c1 & k & p & c2 & -> & Hc1 & Hp).
    pose proof (@processInputs_stops c1 k p c2 Hc1 Hp) as Hstop.
    rewrite Hstop in Hthrow. cbn [fst] in Hthrow. inversion Hthrow; subst e.
    exists c1, k, p, c2.
    unfold acceptable in Hp. apply orb_false_iff in Hp. destruct Hp as [Hs Hr].
    apply negb_false_iff in Hr.
    repeat split; try assumption.
    + rewrite Hstop. reflexivity.
    + rewrite Hstop. apply pending_flat_map.
    + unfold exported. rewrite Hstop. reflexivity.
Qed.

Lemma settle_settle p : settle (settle p) = settle p.
Proof.
  unfold settle. destruct (truthyProp (skip p)) eqn:Hs; [rewrite Hs; reflexivity | ].
  change (skip (populated p)) with (skip p). rewrite Hs. reflexivity.
Qed.

Lemma acceptable_settle p : acceptable (settle p) = acceptable p.
Proof. unfold settle. destruct (truthyProp (skip p)); reflexivity. Qed.

Lemma turnCalls_settle k p : turnCalls (k, settle p) = turnCalls (k, p).
Proof.
  unfold settle. destruct (truthyProp (skip p)) eqn:Hs; [reflexivity | ].
  unfold turnCalls. change (skip (populated p)) with (skip p). rewrite Hs.
  reflexivity.
Qed.

Lemma acceptable_normalised config :
  forallb (fun kp => acceptable (snd kp)) (normalised config)
  = forallb (fun kp => acceptable (snd kp)) config.
Proof.
  induction config as [| [k p] rest IH]; [reflexivity | ].
  cbn [normalised map forallb fst snd]. fold (normalised rest).
  rewrite acceptable_settle, IH. reflexivity.
Qed.

Lemma normalised_normalised config : normalised (normalised config) = normalised config.
Proof.
  induction config as [| [k p] rest IH]; [reflexivity | ].
  cbn [normalised map fst snd]. fold (normalised rest). fold (normalised (normalised rest)).
  rewrite settle_settle, IH. reflexivity.
Qed.

Lemma turnCalls_normalised config :
  flat_map turnCalls (normalised config) = flat_map turnCalls config.
Proof.
  induction config as [| [k p] rest IH]; [reflexivity | ].
  cbn [normalised map flat_map fst snd]. fold (normalised rest).
  rewrite turnCalls_settle, IH. reflexivity.
Qed.

(** X6.  A second pass of [processInputs] over a configuration it has
    already processed without a throw changes no profile and issues the
    same requests with the same log lines: the defaults are filled in once
    and for all. *)
Theorem processInputs_second_pass (config config' : Config) (tr : Trace Json Defn) :
  processInputs env config = (Returned tt, config', tr) ->
  processInputs env config' = (Returned tt, config', tr).
Proof.
  intros H.
  destruct (forallb (fun kp => acceptable (snd kp)) config) eqn:Hall.
  - rewrite (processInputs_acceptable _ Hall) in H. inversion H; subst. clear H.
    assert (Hall' : forallb (fun kp => acceptable (snd kp)) (normalised config) = true)
      by (rewrite acceptable_normalised; exact Hall).
    rewrite (processInputs_acceptable _ Hall').
    rewrite normalised_normalised, turnCalls_normalised. reflexivity.
  - destruct (first_unacceptable _ Hall) as (c1 & k & p & c2 & -> & Hc1 & Hp).
    rewrite (@processInputs_stops c1 k p c2 Hc1 Hp) in H. discriminate.
Qed.

End LoopOutcome.

(* ------------------------------------------------------------------ *)
(** ** More on [handleSwagger] *)

Section SwaggerOutcome.

Variables Json Defn : Type.
Variable env : Env Json Defn.

(** X7.  When the normaliser rejects the parsed document, [handleSwagger]
    throws what the normaliser threw, having made no other call: no
    diagnostic dump, no generator package resolved, nothing written. *)
Theorem normaliser_failure_stops_the_callback
  (swagger : Swagger Json) (doc : Json) (profile : Profile) (k : string)
  (e : JsExn) :
  parseIfString env swagger = Returned doc ->
  Parser_parse env doc = Threw e ->
  handleSwagger env swagger profile k = (Threw e, [(Some k, ParserParse doc)]).
Proof.
  intros Hparse Hnorm. unfold handleSwagger. rewrite Hparse.
  unfold Run.call. rewrite Hnorm. reflexivity.
Qed.

(** X8.  The diagnostic dump comes before the generator package is
    resolved.  With [debug.definition] set: if writing the dump fails,
    [handleSwagger] throws at once and no package is resolved; if the dump
    is written and the package cannot be loaded, the dump and its log line
    stay, followed by the failed [require]. *)
Theorem diagnostic_dump_precedes_generator
  (swagger : Swagger Json) (doc : Json) (d : Defn) (profile : Profile)
  (dbg : Debug) (k path : string) :
  parseIfString env swagger = Returned doc ->
  Parser_parse env doc = Returned d ->
  debug profile = Some dbg ->
  definition dbg = Some path -> truthy path = true ->
  let target := path_resolve env (currentDir env) path in
  let dump := (Some k, FsWriteFileSync target (JSON_stringify env d))
              : Entry Json Defn in
  (forall e,
      fs_writeFileSync env target (JSON_stringify env d) = Threw e ->
      handleSwagger env swagger profile k
      = (Threw e, [(Some k, ParserParse doc); dump]))
  /\ (forall name e,
         fs_writeFileSync env target (JSON_stringify env d) = Returned tt ->
         generatorModule env profile = Returned name ->
         require_generator env name = Threw e ->
         handleSwagger env swagger profile k
         = (Threw e,
            [ (Some k, ParserParse doc);
              dump;
              (Some k, CliDebug ("[" ++ k ++ "] Definition file written to '"
                                   ++ path ++ "'."));
              (Some k, RequireModule name) ])).
Proof.
  intros Hparse Hnorm Hdbg Hdef Hpath target dump. subst target dump.
  unfold handleSwagger. rewrite Hparse.
  unfold Run.call, Run.lift. rewrite Hnorm, Hdbg. cbn [Run.bind].
  unfold dumpDefinition. rewrite Hdef. cbn [truthyProp resolvePath show].
  rewrite Hpath. unfold Run.call, Run.lift, Run.emit. cbn [Run.bind].
  split.
  - intros e Hw. rewrite Hw. reflexivity.
  - intros name e Hw Hname Hreq. rewrite Hw. cbn [Run.bind].
    rewrite Hname. cbn [Run.bind]. rewrite Hreq. reflexivity.
Qed.

End SwaggerOutcome.

Section SwaggerInvariants.

Variables Json Defn : Type.
Variable env : Env Json Defn.

(** A call other than [cli.error], in either of its forms. *)
Definition notError (en : Entry Json Defn) : Prop :=
  (forall m, snd en <> CliError m) /\ (forall e, snd en <> CliErrorExn e).

(** A call other than [cli.info]. *)
Definition notInfo (en : Entry Json Defn) : Prop :=
  forall m, snd en <> CliInfo m.

(** The call of the optional hook. *)
Definition hookCalls (pkg : GeneratorPkg Defn) (profile : Profile) (k : string)
  : Trace Json Defn :=
  match validateProfile pkg with
  | Some _ => [(Some k, ValidateProfile profile)]
  | None => []
  end.

Ltac plain_step :=
  first
    [ apply RunFacts.all_ret
    | apply RunFacts.all_lift
    | apply RunFacts.all_emit; first [ intros ? ?; discriminate
                                     | split; intros ? ?; discriminate ]
    | apply RunFacts.all_call; first [ intros ? ?; discriminate
                                     | split; intros ? ?; discriminate ]
    | apply RunFacts.all_bind; [ | intros ? ] ].

Lemma dumpDefinition_notInfo d dbg k :
  RunFacts.all notInfo (dumpDefinition env d dbg k).
Proof.
  unfold dumpDefinition. destruct (truthyProp (definition dbg)); repeat plain_step.
Qed.

Lemma dumpDefinition_notError d dbg k :
  RunFacts.all notError (dumpDefinition env d dbg k).
Proof.
  unfold dumpDefinition. destruct (truthyProp (definition dbg)); repeat plain_step.
Qed.

Lemma handleSwagger_parsed_notError swagger doc profile k :
  parseIfString env swagger = Returned doc ->
  RunFacts.all notError (handleSwagger env swagger profile k).
Proof.
  intros Hparse. unfold handleSwagger. rewrite Hparse.
  repeat plain_step.
  - apply dumpDefinition_notError.
  - destruct (validateProfile _); repeat plain_step.
Qed.

Lemma notInfo_absent (tr : Trace Json Defn) k m :
  Forall notInfo tr -> ~ In (Some k, CliInfo m) tr.
Proof.
  intros Hall Hin. rewrite Forall_forall in Hall.
  apply (Hall _ Hin m). reflexivity.
Qed.

Ltac quiet :=
  repeat first
    [ assumption
    | apply Forall_nil
    | apply Forall_cons; [ intros ? ?; discriminate | ]
    | apply Forall_app; split ].

(** How [handleSwagger] ends once the document is an object: either every
    call it makes returns, and the trace is the whole pipeline ending with
    the success line, or it throws and the success line is not there. *)
Lemma handleSwagger_outcome swagger doc profile k :
  parseIfString env swagger = Returned doc ->
  (exists d dbg pre name pkg text o,
      Parser_parse env doc = Returned d
      /\ debug profile = Some dbg
      /\ dumpDefinition env d dbg k = (Returned tt, pre)
      /\ generatorModule env profile = Returned name
      /\ require_generator env name = Returned pkg
      /\ (forall hook, validateProfile pkg = Some hook ->
                       hook profile = Returned tt)
      /\ generate pkg d profile = Returned text
      /\ output profile = Some o
      /\ fs_writeFileSync env
           (path_resolve env (currentDir env)
              (path_resolve env (currentDir env) o)) text = Returned tt
      /\ handleSwagger env swagger profile k
         = (Returned tt,
            ((Some k, ParserParse doc)
               :: pre
               ++ (Some k, RequireModule name)
               :: hookCalls pkg profile k
               ++ [ (Some k, Generate d profile);
                    (Some k,
                     FsWriteFileSync
                       (path_resolve env (currentDir env)
                          (path_resolve env (currentDir env) o)) text);
                    (Some k,
                     CliInfo ("[" ++ k ++ "] Code generated at '"
                                ++ path_resolve env (currentDir env) o
                                ++ "'.")) ])%list))
  \/ (exists e,
         fst (handleSwagger env swagger profile k) = Threw e
         /\ Forall notInfo (snd (handleSwagger env swagger profile k))).
Proof.
  intros Hparse. unfold handleSwagger, hookCalls. rewrite Hparse.
  unfold Run.call, Run.lift, Run.emit, Run.ret.
  destruct (Parser_parse env doc) as [d | e1] eqn:Hnorm; cbn [Run.bind];
    [ | right; eexists; split; [reflexivity | cbn [snd]; quiet] ].
  destruct (debug profile) as [dbg | ] eqn:Hdbg; cbn [Run.bind];
    [ | right; eexists; split; [reflexivity | cbn [snd app]; quiet] ].
  pose proof (dumpDefinition_notInfo d dbg k) as Hpre.
  unfold RunFacts.all in Hpre.
  destruct (dumpDefinition env d dbg k) as [[[] | e2] pre] eqn:Hdump;
    cbn [snd] in Hpre; cbn [Run.bind];
    [ | right; eexists; split; [reflexivity | cbn [snd app]; quiet] ].
  destruct (generatorModule env profile) as [name | e3] eqn:Hname; cbn [Run.bind];
    [ | right; eexists; split; [reflexivity | cbn [snd app]; quiet] ].
  destruct (require_generator env name) as [pkg | e4] eqn:Hreq; cbn [Run.bind];
    [ | right; eexists; split; [reflexivity | cbn [snd app]; quiet] ].
  destruct (validateProfile pkg) as [hook | ] eqn:Hv;
    [ destruct (hook profile) as [[] | e5] eqn:Hcall | ]; cbn [Run.bind];
    try solve [right; eexists; split; [reflexivity | cbn [snd app]; quiet]];
    (destruct (generate pkg d profile) as [text | e6] eqn:Hgen; cbn [Run.bind];
       [ | right; eexists; split; [reflexivity | cbn [snd app]; quiet] ];
     destruct (output profile) as [o | ] eqn:Hout; cbn [resolvePath Run.bind];
       [ | right; eexists; split; [reflexivity | cbn [snd app]; quiet] ];
     match goal with
     | |- context [fs_writeFileSync env ?target ?data] =>
         destruct (fs_writeFileSync env target data) as [[] | e7] eqn:Hw
     end; cbn [Run.bind];
       [ | right; eexists; split; [reflexivity | cbn [snd app]; quiet] ];
     left; exists d, dbg, pre, name, pkg, text, o;
     repeat (split;
             [ first [ reflexivity
                     | assumption
                     | intros hook' Hh'; rewrite Hv in Hh'; inversion Hh';
                       subst; assumption
                     | intros hook' Hh'; rewrite Hv in Hh'; discriminate ]
             | ]);
     rewrite Hv; cbn [app]; reflexivity).
Qed.

(** X9.  A body that arrives as an object is handed to the normaliser as it
    is - [JSON.parse] is not applied to it - and the callback then never
    calls [cli.error], with a message or with an exception: it returns
    normally only when every call it made has returned, so whatever fails
    from there on is thrown, not logged. *)
Theorem object_body_is_not_parsed_again
  (value : Json) (profile : Profile) (k : string) :
  (exists rest,
      snd (handleSwagger env (SwaggerValue value) profile k)
      = (Some k, ParserParse value) :: rest)
  /\ (forall en,
         In en (snd (handleSwagger env (SwaggerValue value) profile k)) ->
         (forall m, snd en <> CliError m) /\ (forall e, snd en <> CliErrorExn e))
  /\ (fst (handleSwagger env (SwaggerValue value) profile k) = Returned tt ->
      exists d dbg pre name pkg text o,
        Parser_parse env value = Returned d
        /\ debug profile = Some dbg
        /\ dumpDefinition env d dbg k = (Returned tt, pre)
        /\ generatorModule env profile = Returned name
        /\ require_generator env name = Returned pkg
        /\ (forall hook, validateProfile pkg = Some hook ->
                         hook profile = Returned tt)
        /\ generate pkg d profile = Returned text
        /\ output profile = Some o
        /\ fs_writeFileSync env
             (path_resolve env (currentDir env)
                (path_resolve env (currentDir env) o)) text = Returned tt).
Proof.
  split; [ | split].
  - unfold handleSwagger. cbn [parseIfString]. unfold Run.call.
    destruct (Parser_parse env value) as [d | e]; cbn [Run.bind].
    + match goal with
      | |- context [let (r, tr') := ?X in _] => destruct X as [r tr']
      end.
      cbn [snd app]. eexists. reflexivity.
    + eexists. reflexivity.
  - intros en Hin.
    pose proof (@handleSwagger_parsed_notError (SwaggerValue value) value profile k
                  eq_refl) as Hall.
    unfold RunFacts.all in Hall. rewrite Forall_forall in Hall.
    apply (Hall _ Hin).
  - intros Hret.
    destruct (@handleSwagger_outcome (SwaggerValue value) value profile k eq_refl)
      as [(d & dbg & pre & name & pkg & text & o & H1 & H2 & H3 & H4 & H5 & H6
           & H7 & H8 & H9 & _) | (e & Hthrew & _)].
    + exists d, dbg, pre, name, pkg, text, o. repeat split; assumption.
    + rewrite Hret in Hthrew. discriminate.
Qed.

(** X10.  [handleSwagger] logs its "Code generated" line only as its very
    last step: if the line is in the trace, the callback has returned
    normally and its trace ends with the call of [generate], the write of
    the very text [generate] returned to the resolved output path, and the
    line, in this order; the write had returned, and no other [cli.info]
    precedes. *)
Theorem success_line_means_written
  (swagger : Swagger Json) (profile : Profile) (k m : string) :
  In (Some k, CliInfo m) (snd (handleSwagger env swagger profile k)) ->
  exists doc d name pkg text o before,
    parseIfString env swagger = Returned doc
    /\ Parser_parse env doc = Returned d
    /\ generatorModule env profile = Returned name
    /\ require_generator env name = Returned pkg
    /\ generate pkg d profile = Returned text
    /\ output profile = Some o
    /\ fs_writeFileSync env
         (path_resolve env (currentDir env)
            (path_resolve env (currentDir env) o)) text = Returned tt
    /\ m = "[" ++ k ++ "] Code generated at '"
             ++ path_resolve env (currentDir env) o ++ "'."
    /\ Forall notInfo before
    /\ handleSwagger env swagger profile k
       = (Returned tt,
          (before
             ++ [ (Some k, Generate d profile);
                  (Some k,
                   FsWriteFileSync
                     (path_resolve env (currentDir env)
                        (path_resolve env (currentDir env) o)) text);
                  (Some k, CliInfo m) ])%list).
Proof.
  intros Hin.
  destruct (parseIfString env swagger) as [doc | e0] eqn:Hparse.
  2: { exfalso. rewrite (@handleSwagger_invalid _ _ env swagger profile k e0 Hparse)
         in Hin. cbn [snd] in Hin. unfold tagged in Hin.
       apply in_map_iff in Hin. destruct Hin as [ev [Heq Hev]].
       apply reportInvalidSource_plain in Hev. destruct Hev as [m' ->].
       discriminate. }
  destruct (@handleSwagger_outcome swagger doc profile k Hparse)
    as [(d & dbg & pre & name & pkg & text & o & H1 & H2 & H3 & H4 & H5 & H6
         & H7 & H8 & H9 & Htrace) | (e & _ & Hquiet)].
  2: { exfalso. exact (@notInfo_absent _ k m Hquiet Hin). }
  pose proof (dumpDefinition_notInfo d dbg k) as Hpre.
  unfold RunFacts.all in Hpre. rewrite H3 in Hpre. cbn [snd] in Hpre.
  assert (Hbefore : Forall notInfo
                      ((Some k, ParserParse doc)
                         :: pre ++ (Some k, RequireModule name)
                         :: hookCalls pkg profile k)%list).
  { unfold hookCalls. destruct (validateProfile pkg); quiet. }
  assert (Hm : m = "[" ++ k ++ "] Code generated at '"
                     ++ path_resolve env (currentDir env) o ++ "'.").
  { rewrite Htrace in Hin. cbn [snd] in Hin.
    destruct Hin as [Hin | Hin]; [discriminate | ].
    apply in_app_or in Hin. destruct Hin as [Hin | Hin];
      [exfalso; exact (@notInfo_absent _ k m Hpre Hin) | ].
    destruct Hin as [Hin | Hin]; [discriminate | ].
    apply in_app_or in Hin. destruct Hin as [Hin | Hin].
    - exfalso. unfold hookCalls in Hin.
      destruct (validateProfile pkg); [ | destruct Hin].
      destruct Hin as [Hin | []]. discriminate.
    - destruct Hin as [Hin | [Hin | [Hin | []]]]; try discriminate.
      inversion Hin. reflexivity. }
  exists doc, d, name, pkg, text, o,
    ((Some k, ParserParse doc)
       :: pre ++ (Some k, RequireModule name) :: hookCalls pkg profile k)%list.
  repeat (split; [first [reflexivity | assumption] | ]).
  rewrite Htrace, Hm. cbn [app]. rewrite <- app_assoc. reflexivity.
Qed.

End SwaggerInvariants.

(* ------------------------------------------------------------------ *)
(** ** More on whole runs *)

Section RunOutcome.

Variables Json Defn : Type.
Variable env : Env Json Defn.

Lemma prefix_append (a b : string) : String.prefix a (a ++ b) = true.
Proof.
  induction a as [| c a IH]; [destruct b; reflexivity | ].
  cbn [append String.prefix]. destruct (ascii_dec c c) as [_ | Hne];
    [exact IH | contradiction].
Qed.

Lemma admissible_nil schedule : admissible schedule -> schedule [] = [].
Proof. intros H. apply Permutation_nil. apply H. Qed.

Lemma pending_reportTopLevel ex : pending (reportTopLevel Json Defn ex) = [].
Proof. destruct ex; reflexivity. Qed.

Lemma pending_exported config :
  pending (exported env (Returned config))
  = pending (snd (processInputs env config)).
Proof.
  unfold exported.
  destruct (processInputs env config) as [[[[] | ex] cfg] tr]; cbn [snd];
    [reflexivity | ].
  rewrite pending_append, pending_reportTopLevel, app_nil_r. reflexivity.
Qed.

(** X12.  Configuration discovery: [swagen.config.js] in the working
    directory is loaded whenever it exists, [swagen.config.json] only when
    the script is absent; when neither exists nothing is processed, and the
    run consists of one [cli.error] with the usage text (which names both
    files) followed by the help command. *)
Theorem configuration_discovery (schedule : list Pending -> list Pending) :
  admissible schedule ->
  let script := path_resolve env (currentDir env) configScriptFileName in
  let json := path_resolve env (currentDir env) configJsonFileName in
  (fs_existsSync env script = true ->
   run env schedule = runFrom env schedule (require_config env script))
  /\ (fs_existsSync env script = false -> fs_existsSync env json = true ->
      run env schedule = runFrom env schedule (require_config env json))
  /\ (fs_existsSync env script = false -> fs_existsSync env json = false ->
      exists message,
        run env schedule
        = (Returned tt, [(None, CliError message); (None, HelpCommand)])
        /\ String.prefix
             "Specify a swagen.config.js or swagen.config.json file to configure the swagen tool."
             message = true).
Proof.
  intros Hadm script json. subst script json. unfold run, getConfig.
  split; [ | split].
  - intros ->. reflexivity.
  - intros -> ->. reflexivity.
  - intros -> ->. eexists. split.
    + unfold runFrom. cbn [exported reportTopLevel untagged map pending requestOf].
      rewrite (admissible_nil Hadm). reflexivity.
    + cbn [JsString.join]. refine (prefix_append _ _).
Qed.

Lemma owner_requestFor k p : owner (requestFor env k p) = k.
Proof.
  unfold requestFor. destruct (file p) as [f | ]; [ | reflexivity].
  destruct (truthy f); reflexivity.
Qed.

Lemma owners_in_keys (config : Config) k :
  In k (map owner (flat_map (requestsOf env) config)) -> In k (keys config).
Proof.
  induction config as [| [k0 p0] rest IH]; [intros [] | ].
  cbn [flat_map]. rewrite map_app, in_app_iff. intros [H | H].
  - unfold requestsOf in H. cbn [fst snd] in H.
    destruct (truthyProp (skip p0)); [destruct H | ].
    destruct H as [H | []]. rewrite owner_requestFor in H. now left.
  - right. apply IH, H.
Qed.

Lemma owners_distinct (config : Config) :
  NoDup (keys config) ->
  NoDup (map owner (flat_map (requestsOf env) config)).
Proof.
  induction config as [| [k p] rest IH]; [constructor | ].
  cbn [keys map fst flat_map]. intros Hnd.
  inversion Hnd as [| ? ? Hnotin Hrest]; subst.
  rewrite map_app. unfold requestsOf at 1. cbn [fst snd].
  destruct (truthyProp (skip p)); cbn [map app]; [apply IH, Hrest | ].
  rewrite owner_requestFor. constructor; [ | apply IH, Hrest].
  intros Hin. apply Hnotin. apply owners_in_keys, Hin.
Qed.

(** What is in flight after the loop: the requests of the profiles it got
    past, whether it returned or threw. *)
Lemma pending_processInputs (config : Config) :
  exists c1 c2,
    config = (c1 ++ c2)%list
    /\ snd (processInputs env config) = flat_map (turnCalls env) c1
    /\ pending (snd (processInputs env config)) = flat_map (requestsOf env) c1.
Proof.
  destruct (forallb (fun kp => acceptable (snd kp)) config) eqn:Hall.
  - exists config, []. rewrite app_nil_r.
    rewrite (processInputs_acceptable env _ Hall). cbn [snd].
    repeat split. apply pending_flat_map.
  - destruct (first_unacceptable _ Hall) as (c1 & k & p & c2 & -> & Hc1 & Hp).
    exists c1, ((k, p) :: c2).
    rewrite (@processInputs_stops _ _ env c1 k p c2 Hc1 Hp). cbn [snd].
    repeat split. apply pending_flat_map.
Qed.

Lemma pending_owners_distinct (config : Config) :
  NoDup (keys config) ->
  NoDup (map owner (pending (exported env (Returned config)))).
Proof.
  intros Hnd. rewrite pending_exported.
  destruct (pending_processInputs config) as (c1 & c2 & -> & _ & ->).
  apply owners_distinct.
  unfold keys in *. rewrite map_app in Hnd. apply NoDup_app_remove_r in Hnd.
  exact Hnd.
Qed.

(** X13.  However the loop ends, at most one input request is in flight
    per profile: the owners of the pending requests are pairwise distinct
    keys of the configuration, so no profile is both read and fetched, or
    read twice. *)
Theorem one_request_per_profile (config : Config) :
  NoDup (keys config) ->
  NoDup (map owner (pending (exported env (Returned config))))
  /\ (forall pd, In pd (pending (exported env (Returned config))) ->
                 In (owner pd) (keys config))
  /\ length (pending (exported env (Returned config))) <= length config.
Proof.
  intros Hnd. split; [apply pending_owners_distinct, Hnd | ].
  rewrite pending_exported.
  destruct (pending_processInputs config) as (c1 & c2 & -> & _ & ->).
  split.
  - intros pd Hpd. unfold keys. rewrite map_app, in_app_iff. left.
    apply owners_in_keys. apply in_map. exact Hpd.
  - rewrite length_app.
    assert (length (flat_map (requestsOf env) c1) <= length c1); [ | lia].
    clear. induction c1 as [| [k p] rest IH]; [constructor | ].
    cbn [flat_map]. rewrite length_app. unfold requestsOf at 1. cbn [fst snd].
    destruct (truthyProp (skip p)); simpl; lia.
Qed.

End RunOutcome.

Section UnreadableSource.

Variables Json Defn : Type.
Variable env : Env Json Defn.

Lemma eventLoop_origin (order : list Pending) en :
  In en (snd (eventLoop env order)) ->
  exists pd, In pd order /\ In en (snd (complete env pd)).
Proof.
  induction order as [| pd rest IH]; [intros [] | ].
  cbn [eventLoop]. unfold Run.bind.
  destruct (complete env pd) as [[[] | e] tr] eqn:Hpd.
  - destruct (eventLoop env rest) as [r tr']. cbn [snd] in *.
    intros Hin. apply in_app_or in Hin. destruct Hin as [Hin | Hin].
    + exists pd. split; [now left | rewrite Hpd; exact Hin].
    + destruct (IH Hin) as [pd' [H1 H2]]. exists pd'. split; [now right | exact H2].
  - cbn [snd]. intros Hin. exists pd. split; [now left | rewrite Hpd; exact Hin].
Qed.

Lemma turnCalls_tag kp en :
  In en (turnCalls env kp) -> fst en = Some (fst kp).
Proof.
  destruct kp as [k p]. unfold turnCalls.
  destruct (truthyProp (skip p)); [intros [] | ].
  destruct (requestFor env k (populated p));
    intros [<- | [<- | []]]; reflexivity.
Qed.

Lemma requestsOf_owner kp pd :
  In pd (requestsOf env kp) ->
  pd = requestFor env (fst kp) (populated (snd kp)) /\ owner pd = fst kp.
Proof.
  unfold requestsOf. destruct (truthyProp (skip (snd kp))); [intros [] | ].
  intros [<- | []]. split; [reflexivity | apply owner_requestFor].
Qed.

(** X15.  When the file of a profile cannot be read, all that a whole run
    ever does for that profile is log the input line, issue the read, and
    log the two error lines of the failed read: its document is never
    normalised, no generator package is resolved or invoked for it, and
    nothing is written for it. *)
Theorem unreadable_file_stops_its_profile
  (schedule : list Pending -> list Pending) (config : Config)
  (k : string) (p : Profile) (f : string) (err : JsExn) :
  NoDup (keys config) -> In (k, p) config -> admissible schedule ->
  file p = Some f -> truthy f = true ->
  fs_readFile env (path_resolve env (currentDir env) f) = Threw err ->
  forall en,
    In en (snd (runFrom env schedule (Returned config))) ->
    fst en = Some k ->
    (exists m, snd en = CliInfo m)
    \/ (exists path q, snd en = FsReadFile path q)
    \/ snd en = CliError ("Cannot read swagger file '" ++ f ++ "'.")
    \/ snd en = CliErrorExn err.
Proof.
  intros Hnd Hkp Hadm Hf Ht Hread en Hin Htag.
  assert (Hreq : requestFor env k (populated p)
                 = PendingRead k (populated p) (path_resolve env (currentDir env) f)).
  { unfold requestFor. change (file (populated p)) with (file p).
    rewrite Hf, Ht. reflexivity. }
  destruct (pending_processInputs env config) as (c1 & c2 & Hcfg & Htr & Hpend).
  assert (Hsame : forall q, In (k, q) c1 -> q = p).
  { intros q Hq. apply (@keys_unique config k q p); try assumption.
    rewrite Hcfg. apply in_or_app. now left. }
  unfold runFrom, Run.bind in Hin.
  destruct (eventLoop env (schedule (pending (exported env (Returned config)))))
    as [r tr'] eqn:Hloop.
  cbn [snd] in Hin. apply in_app_or in Hin. destruct Hin as [Hin | Hin].
  - (* a call of the loop *)
    assert (Hin' : In en (snd (processInputs env config))).
    { unfold exported in Hin.
      destruct (processInputs env config) as [[[[] | ex] cfg] tr]; cbn [snd];
        [exact Hin | ].
      apply in_app_or in Hin. destruct Hin as [Hin | Hin]; [exact Hin | ].
      apply reportTopLevel_untagged in Hin. destruct Hin as [Hnone _]. congruence. }
    rewrite Htr in Hin'. apply in_flat_map in Hin'.
    destruct Hin' as [[k' q] [Hq Hen]].
    pose proof (turnCalls_tag _ _ Hen) as Htag'. cbn [fst] in Htag'.
    assert (k' = k) by congruence. subst k'.
    rewrite (Hsame q Hq) in Hen. unfold turnCalls in Hen.
    destruct (truthyProp (skip p)); [destruct Hen | ].
    rewrite Hreq in Hen. destruct Hen as [<- | [<- | []]].
    + left. eexists. reflexivity.
    + right. left. eexists. eexists. reflexivity.
  - (* a call of a callback *)
    assert (Hin' : In en (snd (eventLoop env
                 (schedule (pending (exported env (Returned config)))))))
      by (rewrite Hloop; exact Hin).
    apply eventLoop_origin in Hin'. destruct Hin' as [pd [Hpd Hen]].
    apply (Permutation_in _ (Permutation_sym (Hadm _))) in Hpd.
    rewrite pending_exported, Hpend in Hpd. apply in_flat_map in Hpd.
    destruct Hpd as [[k' q] [Hq Hpd]].
    apply requestsOf_owner in Hpd. cbn [fst snd] in Hpd. destruct Hpd as [Hpd Hown].
    pose proof (complete_inCallback env pd) as Hall. unfold RunFacts.all in Hall.
    rewrite Forall_forall in Hall. destruct (Hall _ Hen) as [Htag' _].
    assert (Hk : k' = k) by congruence. rewrite Hk in Hq, Hpd.
    rewrite (Hsame q Hq) in Hpd. rewrite Hreq in Hpd. subst pd.
    cbn [complete] in Hen. rewrite Hread in Hen. cbn in Hen.
    change (file (populated p)) with (file p) in Hen. rewrite Hf in Hen.
    destruct Hen as [<- | [<- | []]].
    + right. right. left. reflexivity.
    + right. right. right. reflexivity.
Qed.

End UnreadableSource.

(* ------------------------------------------------------------------ *)
(** ** The further properties on concrete runs *)

Definition mixedProfiles : Config :=
  [ ("one", Demo.petstore);
    ("idle", Demo.skipped Demo.sourceless);
    ("three", Demo.remote) ].

Definition twoProfiles : Config :=
  [ ("one", Demo.petstore); ("three", Demo.remote) ].

(** A profile whose generator package does not exist and whose definition
    is to be dumped. *)
Definition orphan : Profile :=
  {| file := Some "petstore.json"; url := None; output := Some "orphan.ts";
     generator := Some "missing"; skip := None;
     debug := Some {| definition := Some "definition.json" |};
     transforms := None; options := None |}.

(** A profile whose file does not exist. *)
Definition lost : Profile :=
  Demo.profile (Some "lost.json") None (Some "lost.ts") (Some "typescript").

(** The outside of [Demo.env], with a normaliser that rejects everything. *)
Definition pickyEnv : Env Demo.Json Demo.Defn :=
  {| currentDir := currentDir (Demo.env []);
     EOL := EOL (Demo.env []);
     path_resolve := path_resolve (Demo.env []);
     fs_existsSync := fs_existsSync (Demo.env []);
     require_config := require_config (Demo.env []);
     fs_readFile := fs_readFile (Demo.env []);
     needle_get := needle_get (Demo.env []);
     fs_writeFileSync := fs_writeFileSync (Demo.env []);
     JSON_parse := JSON_parse (Demo.env []);
     JSON_stringify := JSON_stringify (Demo.env []);
     Parser_parse := fun _ => Threw (JsError "not a swagger document");
     require_generator := require_generator (Demo.env []) |}.

Lemma valid_configuration_is_fully_dispatched_witness :
  processInputs (Demo.env []) mixedProfiles
  = (Returned tt,
     [ ("one", populated Demo.petstore);
       ("idle", Demo.skipped Demo.sourceless);
       ("three", populated Demo.remote) ],
     [ (Some "one", CliInfo "[one] Input swagger file : /work/petstore.json");
       (Some "one", FsReadFile "/work/petstore.json" (populated Demo.petstore));
       (Some "three", CliInfo "[three] Input swagger URL : https://x/doc.json");
       (Some "three", NeedleGet (Some "https://x/doc.json") (populated Demo.remote)) ]).
Proof.
  exact (proj1 (@valid_configuration_is_fully_dispatched _ _ (Demo.env [])
                  mixedProfiles eq_refl)).
Defined.

Lemma processInputs_stops_at_first_invalid_witness :
  exists c1 k p c2,
    threeProfiles = (c1 ++ (k, p) :: c2)%list
    /\ truthyProp (skip p) = false /\ rejected p = true
    /\ snd (fst (processInputs (Demo.env []) threeProfiles))
       = (normalised c1 ++ (k, p) :: c2)%list.
Proof.
  destruct (@processInputs_stops_at_first_invalid _ _ (Demo.env []) threeProfiles
              (ReferenceError "profileKey is not defined") eq_refl)
    as (c1 & k & p & c2 & A & _ & B & C & _ & D & _).
  exists c1, k, p, c2. repeat split; assumption.
Defined.

Lemma processInputs_second_pass_witness :
  processInputs (Demo.env []) (normalised mixedProfiles)
  = (Returned tt, normalised mixedProfiles,
     snd (processInputs (Demo.env []) mixedProfiles)).
Proof.
  apply (@processInputs_second_pass _ _ (Demo.env []) mixedProfiles).
  reflexivity.
Defined.

Lemma normaliser_failure_stops_the_callback_witness :
  handleSwagger pickyEnv (SwaggerText "{ paths }") (populated Demo.petstore) "one"
  = (Threw (JsError "not a swagger document"),
     [(Some "one", ParserParse "{ paths }")]).
Proof.
  apply (@normaliser_failure_stops_the_callback _ _ pickyEnv); reflexivity.
Defined.

Lemma diagnostic_dump_precedes_generator_witness :
  handleSwagger (Demo.env []) (SwaggerText "{ paths }") (populated orphan) "o"
  = (Threw (ExternalError "Cannot find module"),
     [ (Some "o", ParserParse "{ paths }");
       (Some "o", FsWriteFileSync "/work/definition.json" "{ paths }");
       (Some "o", CliDebug "[o] Definition file written to 'definition.json'.");
       (Some "o", RequireModule "swagen-missing") ]).
Proof.
  exact (proj2 (@diagnostic_dump_precedes_generator _ _ (Demo.env [])
                  (SwaggerText "{ paths }") "{ paths }" ["{ paths }"]
                  (populated orphan) {| definition := Some "definition.json" |}
                  "o" "definition.json" eq_refl eq_refl eq_refl eq_refl eq_refl)
           "swagen-missing" (ExternalError "Cannot find module")
           eq_refl eq_refl eq_refl).
Defined.

Lemma success_line_means_written_witness :
  exists before,
    Forall (@notInfo Demo.Json Demo.Defn) before
    /\ handleSwagger (Demo.env []) (SwaggerText "{ paths }")
         (populated Demo.petstore) "one"
       = (Returned tt,
          (before
             ++ [ (Some "one", Generate ["{ paths }"] (populated Demo.petstore));
                  (Some "one",
                   FsWriteFileSync "/work/petstore.ts"
                     (JsString.join Demo.newline ["// generated"; "{ paths }"]));
                  (Some "one",
                   CliInfo "[one] Code generated at '/work/petstore.ts'.") ])%list).
Proof.
  assert (Hin : In (Some "one", CliInfo "[one] Code generated at '/work/petstore.ts'.")
                   (snd (handleSwagger (Demo.env []) (SwaggerText "{ paths }")
                           (populated Demo.petstore) "one")))
    by (vm_compute; tauto).
  destruct (@success_line_means_written _ _ (Demo.env [])
              (SwaggerText "{ paths }") (populated Demo.petstore) "one" _ Hin)
    as (doc & d & name & pkg & text & o & before & H1 & H2 & H3 & H4 & H5 & H6
        & H7 & H8 & H9 & H10).
  exists before. split; [exact H9 | ].
  inversion H1; subst doc. inversion H2; subst d. inversion H6; subst o.
  inversion H3; subst name. inversion H4; subst pkg. inversion H5; subst text.
  exact H10.
Defined.

Lemma configuration_discovery_witness :
  run (Demo.env twoProfiles) Demo.fifo
  = runFrom (Demo.env twoProfiles) Demo.fifo (Returned twoProfiles).
Proof.
  exact (proj1 (proj2 (@configuration_discovery _ _ (Demo.env twoProfiles)
                         Demo.fifo fifo_admissible))
           eq_refl eq_refl).
Defined.

Lemma one_request_per_profile_witness :
  NoDup (map owner (pending (exported (Demo.env []) (Returned mixedProfiles))))
  /\ length (pending (exported (Demo.env []) (Returned mixedProfiles))) <= 3.
Proof.
  assert (Hnd : NoDup (keys mixedProfiles)) by distinct_keys.
  destruct (@one_request_per_profile _ _ (Demo.env []) mixedProfiles Hnd)
    as (A & _ & B).
  split; assumption.
Defined.

Lemma unreadable_file_stops_its_profile_witness :
  let config := [("one", Demo.petstore); ("gone", lost)] in
  In (Some "gone", CliErrorExn (ExternalError "ENOENT"))
     (snd (runFrom (Demo.env []) Demo.fifo (Returned config)))
  /\ forall en,
      In en (snd (runFrom (Demo.env []) Demo.fifo (Returned config))) ->
      fst en = Some "gone" ->
      (exists m, snd en = CliInfo m)
      \/ (exists path q, snd en = FsReadFile path q)
      \/ snd en = CliError ("Cannot read swagger file '" ++ "lost.json" ++ "'.")
      \/ snd en = CliErrorExn (ExternalError "ENOENT").
Proof.
  cbv zeta. split; [vm_compute; tauto | ].
  assert (Hnd : NoDup (keys [("one", Demo.petstore); ("gone", lost)]))
    by distinct_keys.
  exact (@unreadable_file_stops_its_profile _ _ (Demo.env []) Demo.fifo
           [("one", Demo.petstore); ("gone", lost)] "gone" lost "lost.json"
           (ExternalError "ENOENT") Hnd (or_intror (or_introl eq_refl))
           fifo_admissible eq_refl eq_refl eq_refl).
Defined.

